(** * covidsimulation/plot.py: calendar series and chart composition

    A shallow embedding of [src/covidsimulation/plot.py].

    - Calendar dates ([datetime.date]) are proleptic ordinals in [Z]; the
      difference of two dates in days is subtraction and adding a
      [timedelta(days=i)] is addition.  The bounds of Python's calendar
      (years 1 to 9999) are not modelled.
    - Values (numpy floats) are rationals: the module never computes with
      them, it only copies them, tests [ymax] for zero and uses the literal
      [0.0].
    - Python exceptions are the constructors of [exn]; every function that
      can raise returns a [result].
    - [get_date_from_isoformat] (imported from [.utils]) and
      [datetime.isoformat] are collaborators, taken through the class
      [DateParsing]. *)

From Stdlib Require Import ZArith QArith Ascii String List.
From stdpp Require Import base option list gmap strings sorting.

Local Close Scope Q_scope.
Local Open Scope string_scope.
Local Open Scope list_scope.
Local Open Scope Z_scope.

(** ** Exceptions and fallible computations *)

(** [ValueError] is what the module itself raises (the spec's
    ConfigurationError) and what [np.stack] raises; [AssertionError] is the
    spec's InvariantError; [ParseError] is the failure of the date parser on
    a malformed string, kept apart from the module's own errors. *)
Inductive exn : Type :=
  | ValueError (msg : string)
  | AssertionError
  | ParseError
  | IndexError
  | TypeError
  | AttributeError.

Inductive result (A : Type) : Type :=
  | Ok (a : A)
  | Err (e : exn).
Arguments Ok {A} a.
Arguments Err {A} e.

#[global] Instance result_ret : MRet result := λ A a, Ok a.
#[global] Instance result_bind : MBind result := λ A B f r,
  match r with
  | Ok a => f a
  | Err e => Err e
  end.
#[global] Instance result_fmap : FMap result := λ A B f r,
  match r with
  | Ok a => Ok (f a)
  | Err e => Err e
  end.

(** [assert c]: raises [AssertionError] unless [c] holds. *)
Definition assert (c : bool) : result unit :=
  if c then Ok tt else Err AssertionError.

(** ** Dates, datetimes and the date-parsing collaborator *)

Abbreviation date := Z (only parsing).

(** [datetime.date] covers the days from 0001-01-01 ([date.min], ordinal 1)
    to 9999-12-31 ([date.max], ordinal 3652059), and [date + timedelta]
    raises [OverflowError] when the sum leaves this range.  Dates are
    ordinals in [Z] here and adding days never fails, so a statement that
    adds days to an arbitrary date carries the range as a hypothesis. *)
Definition date_min : date := 1.
Definition date_max : date := 3652059.

Definition in_calendar (d : date) : Prop := date_min ≤ d ≤ date_max.

(** The [n] days from [start] on are all days of the calendar: what
    [start_date + datetime.timedelta(days=i)] needs for [i] in [range(n)]. *)
Definition days_in_calendar (start : date) (n : Z) : Prop :=
  in_calendar start ∧ start + n - 1 ≤ date_max.

Record datetime : Type := mk_datetime {
  dt_date : date;      (* calendar day *)
  dt_time : Z          (* microseconds since midnight *)
}.

#[global] Instance datetime_eq_dec : EqDecision datetime.
Proof. solve_decision. Defined.
#[global] Instance datetime_countable : Countable datetime.
Proof.
  apply (inj_countable' (λ t, (dt_date t, dt_time t))
                        (λ p, mk_datetime p.1 p.2)).
  by intros [].
Defined.

Class DateParsing : Type := {
  (* utils.get_date_from_isoformat; [None] when the string is malformed *)
  get_date_from_isoformat : string → option date;
  (* datetime.isoformat *)
  isoformat : datetime → string
}.

Definition parse_date `{DateParsing} (s : string) : result date :=
  match get_date_from_isoformat s with
  | Some d => Ok d
  | None => Err ParseError
  end.

(** The elements an [x] sequence may hold. *)
Inductive xitem : Type :=
  | XDate (d : date)
  | XDateTime (t : datetime)
  | XStr (s : string).

#[global] Instance xitem_eq_dec : EqDecision xitem.
Proof. solve_decision. Defined.
#[global] Instance xitem_countable : Countable xitem.
Proof.
  apply (inj_countable'
    (λ a, match a with
          | XDate d => inl d
          | XDateTime t => inr (inl t)
          | XStr s => inr (inr s)
          end)
    (λ c, match c with
          | inl d => XDate d
          | inr (inl t) => XDateTime t
          | inr (inr s) => XStr s
          end)).
  by intros [].
Defined.

#[global] Instance XDate_inj : Inj (=) (=) XDate.
Proof. by intros ?? [=]. Qed.

(** ** Python sequences: indexing, slicing, sorting *)

(** [l[i]] with Python's negative indices. *)
Definition py_index {A} (l : list A) (i : Z) : result A :=
  let n := Z.of_nat (length l) in
  let j := if i <? 0 then i + n else i in
  if (0 <=? j) && (j <? n) then
    match l !! Z.to_nat j with
    | Some a => Ok a
    | None => Err IndexError
    end
  else Err IndexError.

(** The bound of a slice: negative bounds count from the end, and the
    result is clamped into [0, len]. *)
Definition slice_bound (n i : Z) : Z :=
  let j := if i <? 0 then i + n else i in
  Z.max 0 (Z.min n j).

(** [l[start:stop]] *)
Definition py_slice {A} (l : list A) (start stop : Z) : list A :=
  let n := Z.of_nat (length l) in
  let a := slice_bound n start in
  let b := slice_bound n stop in
  take (Z.to_nat (b - a)) (drop (Z.to_nat a) l).

Definition datetime_le (t1 t2 : datetime) : Prop :=
  dt_date t1 < dt_date t2 ∨ (dt_date t1 = dt_date t2 ∧ dt_time t1 ≤ dt_time t2).
Definition string_le (s1 s2 : string) : Prop := String.leb s1 s2 = true.

#[global] Instance datetime_le_dec : RelDecision datetime_le.
Proof. intros ??; unfold datetime_le; apply _. Defined.
#[global] Instance string_le_dec : RelDecision string_le.
Proof. intros ??; unfold string_le; apply _. Defined.

Definition as_date (a : xitem) : option date :=
  match a with XDate d => Some d | _ => None end.
Definition as_datetime (a : xitem) : option datetime :=
  match a with XDateTime t => Some t | _ => None end.
Definition as_str (a : xitem) : option string :=
  match a with XStr s => Some s | _ => None end.

(** [sorted(l)]: dates, datetimes and strings are each ordered among
    themselves; ordering two elements of different types raises
    [TypeError]. *)
Definition py_sorted (l : list xitem) : result (list xitem) :=
  match mapM as_date l, mapM as_datetime l, mapM as_str l with
  | Some ds, _, _ => Ok (XDate <$> merge_sort Z.le ds)
  | _, Some ts, _ => Ok (XDateTime <$> merge_sort datetime_le ts)
  | _, _, Some ss => Ok (XStr <$> merge_sort string_le ss)
  | None, None, None => Err TypeError
  end.

(** ** The palette *)

Definition PLOT_COLORS : list (string * string) :=
  [ ("rgba(0,0,255,1)", "rgba(0,0,255,0.25)");
    ("rgba(255,0,0,1)", "rgba(255,0,0,0.25)");
    ("rgba(0,0,0,1)", "rgba(0,0,0,0.25)");
    ("rgba(128,0,240,1)", "rgba(128,0,240,0.25)");
    ("rgba(240,128,0,1)", "rgba(240,128,0,0.25)");
    ("rgba(0,128,240,1)", "rgba(0,128,240,0.25)");
    ("rgba(0,255,0,1)", "rgba(0,255,0,0.25)") ].

(** ** Helpers of the series constructor *)

Section helpers.
Context `{DateParsing}.

(** One iteration of [make_date_sequence]: a datetime is first turned
    into its ISO string, a string is parsed, a date is kept. *)
Definition make_date (day : xitem) : result date :=
  let day : string + date :=
    match day with
    | XDateTime t => inl (isoformat t)
    | XStr s => inl s
    | XDate d => inr d
    end in
  match day with
  | inl s => parse_date s
  | inr d => Ok d
  end.

Definition make_date_sequence (x : list xitem) : result (list date) :=
  mapM make_date x.
End helpers.

Definition map_x_to_y (x : list xitem) (y : list Q) : result (gmap xitem Q) :=
  _ ← assert (bool_decide (length x = length y));
  Ok (foldl (λ x_to_y xy, <[xy.1 := xy.2]> x_to_y) ∅ (zip x y)).

Definition to_datetime (d : date) : datetime := mk_datetime d 0.

(** The loop [for day in self._x: last = x_to_y.get(day, last);
    new_y.append(last)], giving [new_y]. *)
Fixpoint fill_loop (x_to_y : gmap xitem Q) (days : list date) (last : Q) : list Q :=
  match days with
  | [] => []
  | day :: days =>
      let last := default last (x_to_y !! XDate day) in
      last :: fill_loop x_to_y days last
  end.

(** The [start_date] argument when it is not [None]. *)
Inductive start_arg : Type :=
  | StartStr (s : string)
  | StartDate (d : date).

(** Truth value of [start_date]: [None] and the empty string are false. *)
Definition start_truthy (start_date : option start_arg) : bool :=
  match start_date with
  | None => false
  | Some (StartStr s) => negb (String.eqb s "")
  | Some (StartDate _) => true
  end.

(** An argument of [get_index], [__getitem__] and [trim]. *)
Inductive index_arg : Type :=
  | IInt (i : Z)
  | IStr (s : string)
  | IDate (d : date).

(** [start or 0] *)
Definition or_zero (start : option index_arg) : index_arg :=
  match start with
  | None => IInt 0
  | Some (IInt 0) => IInt 0
  | Some (IStr "") => IInt 0
  | Some a => a
  end.

(** ** class Series *)

Module Series.

Record t : Type := mk {
  _x : list date;
  x : list datetime;
  y : list Q
}.

Section methods.
Context `{DateParsing}.

(** [__init__] (lines 27-54).  [list(x)] raises [TypeError] when [x] is
    [None]; [x[0]] and [x[-1]] raise [IndexError] on an empty sequence.
    After the first branch [x] holds dates; after the second it is what
    the caller gave.  The values are filled only when there are fewer of
    them than days.  The days [start_date + i] are sums in [Z]: the
    [OverflowError] of a day after 9999-12-31 is not modelled, and
    [days_in_calendar] says when it cannot occur. *)
Definition __init__ (y : list Q) (x : option (list xitem))
    (start_date : option start_arg) : result t :=
  match x, start_date with
  | None, None => Err (ValueError "Either x or start_date must be specified")
  | _, _ =>
    '(x, start_date, num_elements) ←
      (if negb (start_truthy start_date) then
         xs ← from_option Ok (Err TypeError) x;
         sorted_xs ← py_sorted xs;
         _ ← assert (bool_decide (xs = sorted_xs));
         x ← make_date_sequence xs;
         start_date ← py_index x 0;
         end_date ← py_index x (-1);
         Ok (Some (XDate <$> x), start_date, end_date - start_date + 1)
       else
         start_date ← match start_date with
                      | Some (StartStr s) => parse_date s
                      | Some (StartDate d) => Ok d
                      | None => Err TypeError
                      end;
         Ok (x, start_date, Z.of_nat (length y)));
    let _x := (λ i, start_date + i) <$> seqZ 0 num_elements in
    y ← (if Z.of_nat (length y) <? num_elements then
           xs ← from_option Ok (Err TypeError) x;
           x_to_y ← map_x_to_y xs y;
           Ok (fill_loop x_to_y _x 0%Q)
         else Ok y);
    Ok {| _x := _x; x := to_datetime <$> _x; y := y |}
  end.

Definition __len__ (self : t) : Z := Z.of_nat (length (y self)).

Definition start_date (self : t) : result date := py_index (_x self) 0.

(** [get_index] (lines 67-72): a string is parsed, a date is turned into
    a clamped day offset, anything else is returned as it is. *)
Definition get_index (self : t) (x_value : index_arg) : result Z :=
  x_value ← match x_value with
            | IStr s => inr <$> parse_date s
            | IDate d => Ok (inr d)
            | IInt i => Ok (inl i)
            end;
  match x_value : Z + date with
  | inr d =>
      start ← start_date self;
      Ok (Z.min (Z.max (d - start) 0) (Z.of_nat (length (_x self)) - 1))
  | inl i => Ok i
  end.

Definition __getitem__ (self : t) (item : index_arg) : result Q :=
  item ← get_index self item;
  py_index (y self) item.

Definition tolist (self : t) : list Q := y self.

(** The module-level function [get_stop_index] (lines 107-109). *)
Definition get_stop_index (series : t) (stop : option index_arg) : result Z :=
  stop_index ← match stop with
               | Some stop => (λ i, i + 1) <$> get_index series stop
               | None => Ok (__len__ series)
               end;
  Ok (Z.min stop_index (__len__ series)).

(** [trim] (lines 77-81): the constructor is called on the slices, with
    the dates as [x] and no [start_date]. *)
Definition trim (self : t) (start stop : option index_arg) : result t :=
  start_index ← get_index self (or_zero start);
  stop_index ← get_stop_index self stop;
  __init__ (py_slice (y self) start_index stop_index)
           (Some (XDate <$> py_slice (_x self) start_index stop_index))
           None.
End methods.

End Series.

(** ** Traces and figures *)

(** The two kinds of [go.Scatter] the module creates. *)
Inductive trace : Type :=
  | Line (x : list datetime) (y : list Q) (line_color : string) (name : string)
  | Fill (x : list datetime) (y : list Q) (fillcolor line_color : string)
         (showlegend : bool) (name : option string).

Definition is_fill (tr : trace) : bool :=
  match tr with Fill _ _ _ _ _ _ => true | Line _ _ _ _ => false end.
Definition is_line (tr : trace) : bool := negb (is_fill tr).

Record Figure : Type := mk_Figure {
  data : list trace;
  title : option string;
  yaxis_range : option (Q * Q);
  yaxis_type : option string;
  width : option Z;
  showlegend : option bool
}.

(** [go.FigureWidget()] *)
Definition FigureWidget : Figure :=
  {| data := []; title := None; yaxis_range := None; yaxis_type := None;
     width := None; showlegend := None |}.

Definition add_trace (fig : Figure) (tr : trace) : Figure :=
  {| data := data fig ++ [tr]; title := title fig;
     yaxis_range := yaxis_range fig; yaxis_type := yaxis_type fig;
     width := width fig; showlegend := showlegend fig |}.

Definition plot_line (fig : Figure) (series : Series.t) (pop_name : string)
    (color_index : Z) : result Figure :=
  color ← py_index PLOT_COLORS color_index;
  Ok (add_trace fig (Line (Series.x series) (Series.y series) color.1 pop_name)).

(** [concat_seq]; [s1_is_ndarray] is [isinstance(s1, np.ndarray)].
    [np.stack] raises [ValueError] unless both arrays have one shape, and
    reshaping the stacked rows gives the first array followed by the
    second. *)
Definition concat_seq {A} (s1_is_ndarray : bool) (s1 s2 : list A) : result (list A) :=
  if s1_is_ndarray then
    if bool_decide (length s1 = length s2) then Ok (s1 ++ s2)
    else Err (ValueError "all input arrays must have the same shape")
  else Ok (s1 ++ s2).

(** The fields of a series are numpy arrays. *)
Definition plot_confidence_range (fig : Figure) (series_low series_high : Series.t)
    (legend : option string) (color_index : Z) : result Figure :=
  _ ← assert (bool_decide (length (Series.x series_low) = length (Series.x series_high)));
  xs ← concat_seq true (Series.x series_high) (reverse (Series.x series_low));
  ys ← concat_seq true (Series.y series_high) (reverse (Series.y series_low));
  fillcolor ← py_index PLOT_COLORS color_index;
  line_color ← py_index PLOT_COLORS color_index;
  Ok (add_trace fig (Fill xs ys fillcolor.2 line_color.2
                          (bool_decide (legend ≠ None)) legend)).

(** ** plot *)

(** What a plot item holds: a bare series or a sequence of series. *)
Inductive plot_data : Type :=
  | Bare (s : Series.t)
  | Coll (l : list Series.t).

(** What [data[i]] evaluates to: an element of the sequence, or, for a bare
    series, what [Series.__getitem__] returns, one of its values. *)
Inductive pyobj : Type :=
  | OSeries (s : Series.t)
  | OFloat (v : Q).

(** [partial(plot_line, fig, ...)] and [partial(plot_confidence_range, fig,
    ...)]: a function with its frozen arguments, called later. *)
Inductive deferred : Type :=
  | partial_plot_line (series : Series.t) (pop_name : string) (color_index : Z)
  | partial_plot_confidence_range (series_low series_high : Series.t)
      (legend : option string) (color_index : Z).

(** Calling a partial object; [fig] is the one figure all of them share. *)
Definition call (fn : deferred) (fig : Figure) : result Figure :=
  match fn with
  | partial_plot_line series pop_name color_index =>
      plot_line fig series pop_name color_index
  | partial_plot_confidence_range series_low series_high legend color_index =>
      plot_confidence_range fig series_low series_high legend color_index
  end.

Definition set_title (fig : Figure) (v : string) : Figure :=
  {| data := data fig; title := Some v; yaxis_range := yaxis_range fig;
     yaxis_type := yaxis_type fig; width := width fig;
     showlegend := showlegend fig |}.
Definition set_yaxis_range (fig : Figure) (v : Q * Q) : Figure :=
  {| data := data fig; title := title fig; yaxis_range := Some v;
     yaxis_type := yaxis_type fig; width := width fig;
     showlegend := showlegend fig |}.
Definition set_yaxis_type (fig : Figure) (v : string) : Figure :=
  {| data := data fig; title := title fig; yaxis_range := yaxis_range fig;
     yaxis_type := Some v; width := width fig; showlegend := showlegend fig |}.
Definition set_width (fig : Figure) (v : Z) : Figure :=
  {| data := data fig; title := title fig; yaxis_range := yaxis_range fig;
     yaxis_type := yaxis_type fig; width := Some v;
     showlegend := showlegend fig |}.
Definition set_showlegend (fig : Figure) (v : bool) : Figure :=
  {| data := data fig; title := title fig; yaxis_range := yaxis_range fig;
     yaxis_type := yaxis_type fig; width := width fig; showlegend := Some v |}.

(** Truth values of [ymax] and [size]. *)
Definition ymax_truthy (ymax : option Q) : option Q :=
  match ymax with
  | Some v => if Qeq_bool v 0%Q then None else Some v
  | None => None
  end.
Definition size_truthy (size : option Z) : option Z :=
  match size with
  | Some 0 => None
  | _ => size
  end.

(** Calls the deferred functions in order, on one figure. *)
Fixpoint call_all (fns : list deferred) (fig : Figure) : result Figure :=
  match fns with
  | [] => Ok fig
  | fn :: fns => fig ← call fn fig; call_all fns fig
  end.

(** The end of [plot]: the title, the range and the type of the y axis, the
    width and the legend; [n] is [len(pop_stats_name_tuples)]. *)
Definition update_layout (fig : Figure) (title : string) (log_scale : bool)
    (size : option Z) (ymax : option Q) (n : nat) : Figure :=
  let fig := set_title fig title in
  let fig := match ymax_truthy ymax with
             | Some ymax => set_yaxis_range fig (if log_scale then 1%Q else 0%Q, ymax)
             | None => fig
             end in
  let fig := if log_scale then set_yaxis_type fig "log" else fig in
  let fig := match size_truthy size with
             | Some size => set_width fig size
             | None => fig
             end in
  if bool_decide (n = 1%nat) then set_showlegend fig false else fig.

Section plot.
Context `{DateParsing}.

Definition isinstance_Series (data : plot_data) : bool :=
  match data with Bare _ => true | Coll _ => false end.

Definition len (data : plot_data) : Z :=
  match data with
  | Bare s => Series.__len__ s
  | Coll l => Z.of_nat (length l)
  end.

Definition getitem (data : plot_data) (i : Z) : result pyobj :=
  match data with
  | Bare s => OFloat <$> Series.__getitem__ s (IInt i)
  | Coll l => OSeries <$> py_index l i
  end.

(** [obj.trim(start, stop)]: a number has no such attribute. *)
Definition call_trim (obj : pyobj) (start stop : option index_arg) : result Series.t :=
  match obj with
  | OSeries s => Series.trim s start stop
  | OFloat _ => Err AttributeError
  end.

(** [data[i].trim(start, stop)] *)
Definition trimmed (data : plot_data) (i : Z) (start stop : option index_arg)
    : result Series.t :=
  obj ← getitem data i; call_trim obj start stop.

(** The body of the loop over the plot items. *)
Definition plot_item (data : plot_data) (pop_name : string) (color_index : Z)
    (stop start : option index_arg) (show_confidence_interval : bool)
    (area_fns line_fns : list deferred) : result (list deferred * list deferred) :=
  if isinstance_Series data || (len data =? 1) then
    s ← trimmed data 0 start stop;
    Ok (area_fns, line_fns ++ [partial_plot_line s pop_name color_index])
  else if len data =? 3 then
    area_fns ←
      (if show_confidence_interval then
         low ← trimmed data 1 start stop;
         high ← trimmed data 2 start stop;
         Ok (area_fns ++ [partial_plot_confidence_range low high None color_index])
       else Ok area_fns);
    s ← trimmed data 0 start stop;
    Ok (area_fns, line_fns ++ [partial_plot_line s pop_name color_index])
  else if len data =? 2 then
    low ← trimmed data 0 start stop;
    high ← trimmed data 1 start stop;
    Ok (area_fns ++ [partial_plot_confidence_range low high (Some pop_name) color_index],
        line_fns)
  else Err (ValueError "Invalid number of elements to plot").

(** The loop [for color_index, (data, pop_name) in enumerate(...)], from
    position [i] on. *)
Fixpoint plot_loop (pop_stats_name_tuples : list (plot_data * string)) (i : Z)
    (stop start : option index_arg) (cindex : option Z)
    (show_confidence_interval : bool)
    (area_fns line_fns : list deferred) : result (list deferred * list deferred) :=
  match pop_stats_name_tuples with
  | [] => Ok (area_fns, line_fns)
  | (data, pop_name) :: rest =>
      let color_index := i `mod` Z.of_nat (length PLOT_COLORS) in
      let color_index := default color_index cindex in
      '(area_fns, line_fns) ←
        plot_item data pop_name color_index stop start
                  show_confidence_interval area_fns line_fns;
      plot_loop rest (i + 1) stop start cindex show_confidence_interval
                area_fns line_fns
  end.

Definition plot (pop_stats_name_tuples : list (plot_data * string))
    (title : string) (log_scale : bool) (size : option Z)
    (stop start : option index_arg) (ymax : option Q) (cindex : option Z)
    (show_confidence_interval : bool) : result Figure :=
  let fig := FigureWidget in
  '(area_fns, line_fns) ←
    plot_loop pop_stats_name_tuples 0 stop start cindex
              show_confidence_interval [] [];
  fig ← call_all area_fns fig;
  fig ← call_all line_fns fig;
  Ok (update_layout fig title log_scale size ymax (length pop_stats_name_tuples)).
End plot.

(** ** A date-parsing collaborator

    An instance of [DateParsing] for ISO-8601 calendar dates
    ([YYYY-MM-DD]), with the ordinals of [datetime.date.toordinal]. *)

Module Iso.

Definition is_leap (y : Z) : bool :=
  ((y `mod` 4 =? 0) && negb (y `mod` 100 =? 0)) || (y `mod` 400 =? 0).

Definition days_in_month (y m : Z) : Z :=
  if m =? 2 then (if is_leap y then 29 else 28)
  else if (m =? 4) || (m =? 6) || (m =? 9) || (m =? 11) then 30
  else 31.

(** The ordinal of a civil date; 0001-01-01 has ordinal 1. *)
Definition toordinal (y m d : Z) : Z :=
  let y := if m <=? 2 then y - 1 else y in
  let era := y `div` 400 in
  let yoe := y - era * 400 in
  let mp := (m + 9) `mod` 12 in
  let doy := (153 * mp + 2) `div` 5 + d - 1 in
  let doe := yoe * 365 + yoe `div` 4 - yoe `div` 100 + doy in
  era * 146097 + doe - 305.

(** The civil date (year, month, day) of an ordinal. *)
Definition fromordinal (n : Z) : Z * Z * Z :=
  let z := n + 305 in
  let era := z `div` 146097 in
  let doe := z - era * 146097 in
  let yoe := (doe - doe `div` 1460 + doe `div` 36524 - doe `div` 146096) `div` 365 in
  let doy := doe - (365 * yoe + yoe `div` 4 - yoe `div` 100) in
  let mp := (5 * doy + 2) `div` 153 in
  let d := doy - (153 * mp + 2) `div` 5 + 1 in
  let m := if mp <? 10 then mp + 3 else mp - 9 in
  let y := yoe + era * 400 in
  (if m <=? 2 then y + 1 else y, m, d).

Definition digit (c : ascii) : option Z :=
  let n := Z.of_N (N_of_ascii c) in
  if (48 <=? n) && (n <=? 57) then Some (n - 48) else None.

Definition digits2 (a b : ascii) : option Z :=
  a ← digit a; b ← digit b; Some (10 * a + b).

Definition parse (s : string) : option date :=
  match s with
  | String y1 (String y2 (String y3 (String y4 (String "-"
      (String m1 (String m2 (String "-" (String d1 (String d2 EmptyString))))))))) =>
      yh ← digits2 y1 y2;
      yl ← digits2 y3 y4;
      m ← digits2 m1 m2;
      d ← digits2 d1 d2;
      let y := 100 * yh + yl in
      if (1 <=? y) && (1 <=? m) && (m <=? 12) && (1 <=? d) && (d <=? days_in_month y m)
      then Some (toordinal y m d) else None
  | _ => None
  end.

Definition digit_char (n : Z) : string :=
  String (ascii_of_N (Z.to_N (48 + n `mod` 10))) EmptyString.

Definition pad2 (n : Z) : string :=
  (digit_char (n `div` 10) ++ digit_char n)%string.

Definition pad4 (n : Z) : string :=
  (pad2 (n `div` 100) ++ pad2 (n `mod` 100))%string.

(** [datetime.isoformat] (whole seconds). *)
Definition format (t : datetime) : string :=
  let '(y, m, d) := fromordinal (dt_date t) in
  let secs := dt_time t `div` 1000000 in
  (pad4 y ++ "-" ++ pad2 m ++ "-" ++ pad2 d ++ "T" ++ pad2 (secs `div` 3600)
     ++ ":" ++ pad2 ((secs `div` 60) `mod` 60) ++ ":" ++ pad2 (secs `mod` 60))%string.

Definition parsing : DateParsing :=
  {| get_date_from_isoformat := parse; isoformat := format |}.

End Iso.


(** ** Arrays as objects

    What the claims about copies and aliases need: numpy arrays are buffers
    in a store; an array object is a window on a buffer, and a slice of an
    array is a window on the same buffer. *)

Definition loc : Type := positive.

Inductive array : Type :=
  | FloatArray (l : list Q)
  | DateArray (l : list date)
  | DateTimeArray (l : list datetime).

Abbreviation heap := (gmap loc array).

Record ndarray : Type := mk_ndarray {
  base : loc;       (* the buffer *)
  offset : nat;     (* where the window starts *)
  size : nat        (* len() *)
}.

Definition window {A} (l : list A) (v : ndarray) : list A :=
  take (size v) (drop (offset v) l).

Definition read_floats (h : heap) (v : ndarray) : list Q :=
  match h !! base v with
  | Some (FloatArray l) => window l v
  | _ => []
  end.
Definition read_dates (h : heap) (v : ndarray) : list date :=
  match h !! base v with
  | Some (DateArray l) => window l v
  | _ => []
  end.
Definition read_datetimes (h : heap) (v : ndarray) : list datetime :=
  match h !! base v with
  | Some (DateTimeArray l) => window l v
  | _ => []
  end.

(** A new buffer. *)
Definition alloc (h : heap) (a : array) : heap * loc :=
  let l := fresh (dom h) in (<[l := a]> h, l).

(** [np.array(l)] on a list: a new array with the elements of the list. *)
Definition np_array_floats (h : heap) (l : list Q) : heap * ndarray :=
  let '(h, b) := alloc h (FloatArray l) in (h, mk_ndarray b 0 (length l)).
Definition np_array_dates (h : heap) (l : list date) : heap * ndarray :=
  let '(h, b) := alloc h (DateArray l) in (h, mk_ndarray b 0 (length l)).
Definition np_array_datetimes (h : heap) (l : list datetime) : heap * ndarray :=
  let '(h, b) := alloc h (DateTimeArray l) in (h, mk_ndarray b 0 (length l)).

(** [deepcopy(v)] of an array of floats: a new array with the elements that
    the window [v] shows. *)
Definition deepcopy (h : heap) (v : ndarray) : heap * ndarray :=
  np_array_floats h (read_floats h v).

(** [v[start:stop]]: a window on the buffer of [v]. *)
Definition ndarray_slice (v : ndarray) (start stop : Z) : ndarray :=
  let n := Z.of_nat (size v) in
  let a := slice_bound n start in
  let b := slice_bound n stop in
  mk_ndarray (base v) (offset v + Z.to_nat a) (Z.to_nat (b - a)).

(** The argument [y] of the constructor: a list or an array. *)
Inductive y_arg : Type :=
  | YList (l : list Q)
  | YArray (v : ndarray).

(** The argument [x] of the constructor: a sequence or an array of dates. *)
Inductive x_arg : Type :=
  | XList (l : list xitem)
  | XArray (v : ndarray).

Definition y_values (h : heap) (y : y_arg) : list Q :=
  match y with
  | YList l => l
  | YArray v => read_floats h v
  end.

Definition x_items (h : heap) (x : x_arg) : list xitem :=
  match x with
  | XList l => l
  | XArray v => XDate <$> read_dates h v
  end.

(** ** class Series, with its arrays in the store *)

Module SeriesObj.

Record t : Type := mk {
  _x : ndarray;
  x : ndarray;
  y : ndarray
}.

(** The series that an object holds. *)
Definition read (h : heap) (self : t) : Series.t :=
  {| Series._x := read_dates h (_x self);
     Series.x := read_datetimes h (x self);
     Series.y := read_floats h (y self) |}.

(** The buffers of an object. *)
Definition buffers (self : t) : gset loc :=
  {[ base (_x self); base (x self); base (y self) ]}.

Section methods.
Context `{DateParsing}.

(** [__init__]: the elements are those of [Series.__init__]; [self._x]
    and [self.x] are new arrays, and [self.y] is [deepcopy(y)] when [y]
    is still the caller's array, [np.array(y)] when it is a list (the
    caller's, or [new_y]). *)
Definition __init__ (h : heap) (y : y_arg) (x : option x_arg)
    (start_date : option start_arg) : result (heap * t) :=
  let values := y_values h y in
  s ← Series.__init__ values (x_items h <$> x) start_date;
  let filled := bool_decide (length values < length (Series._x s))%nat in
  let '(h, _x) := np_array_dates h (Series._x s) in
  let '(h, x) := np_array_datetimes h (Series.x s) in
  let '(h, y) := match y with
                 | YArray v => if filled then np_array_floats h (Series.y s)
                               else deepcopy h v
                 | YList _ => np_array_floats h (Series.y s)
                 end in
  Ok (h, {| _x := _x; x := x; y := y |}).

(** [trim]: the constructor is given slices of [self.y] and [self._x],
    windows on the buffers of [self]. *)
Definition trim (h : heap) (self : t) (start stop : option index_arg)
    : result (heap * t) :=
  start_index ← Series.get_index (read h self) (or_zero start);
  stop_index ← Series.get_stop_index (read h self) stop;
  __init__ h (YArray (ndarray_slice (y self) start_index stop_index))
           (Some (XArray (ndarray_slice (_x self) start_index stop_index)))
           None.
End methods.

End SeriesObj.

(** ** Vocabulary of the properties *)

(** Every date is later than the dates before it. *)
Definition ascending (ds : list date) : Prop :=
  ∀ i j di dj, (i < j)%nat → ds !! i = Some di → ds !! j = Some dj → di < dj.

(** Some date is strictly earlier than a date before it. *)
Definition out_of_order (ds : list date) : Prop :=
  ∃ i j di dj, (i < j)%nat ∧ ds !! i = Some di ∧ ds !! j = Some dj ∧ dj < di.

(** The series of [n] consecutive days from [start] with the values [y]. *)
Definition dense_series (start : date) (y : list Q) : Series.t :=
  let _x := seqZ start (Z.of_nat (length y)) in
  {| Series._x := _x; Series.x := to_datetime <$> _x; Series.y := y |}.

(** The computation does not raise a [ValueError]. *)
Definition no_ValueError {A} (r : result A) : Prop :=
  ∀ msg, r ≠ Err (ValueError msg).

(** The date an index argument stands for, if it is not a raw integer. *)
Definition index_date `{DateParsing} (v : index_arg) : option date :=
  match v with
  | IInt _ => None
  | IStr s => get_date_from_isoformat s
  | IDate d => Some d
  end.

(** The earliest and the latest of a sequence of dates. *)
Definition min_date (ds : list date) : date := foldr Z.min (default 0 (head ds)) ds.
Definition max_date (ds : list date) : date := foldr Z.max (default 0 (head ds)) ds.

(** Forward fill, in the words of the specification: [v] is the value the
    sparse input [(ds, ys)] gives to the day [d]: the input value of that
    day if the day is present; otherwise the value of the most recent
    earlier input day; [0.0] if there is no earlier input day. *)
Definition forward_filled (ds : list date) (ys : list Q) (d : date) (v : Q) : Prop :=
  (∀ j, ds !! j = Some d → ys !! j = Some v)
  ∧ (d ∉ ds → ∀ j dj, ds !! j = Some dj → dj < d →
       (∀ dk, dk ∈ ds → dk < d → dk ≤ dj) → ys !! j = Some v)
  ∧ (d ∉ ds → (∀ dk, dk ∈ ds → d < dk) → v = 0%Q).

(** The figure with more traces. *)
Definition add_traces (fig : Figure) (trs : list trace) : Figure :=
  {| data := data fig ++ trs; title := title fig;
     yaxis_range := yaxis_range fig; yaxis_type := yaxis_type fig;
     width := width fig; showlegend := showlegend fig |}.

(** The traces that deferred calls draw, on a figure of their own. *)
Definition traces_of (fns : list deferred) : result (list trace) :=
  data <$> call_all fns FigureWidget.

(** The color index of the item at position [k]. *)
Definition color_of (cindex : option Z) (k : Z) : Z :=
  default (k `mod` Z.of_nat (length PLOT_COLORS)) cindex.

Section vocabulary.
Context `{DateParsing}.

(** The fill traces and the line traces of one plot item: what the body of
    the loop of [plot] defers for it, drawn. *)
Definition item_traces (data : plot_data) (pop_name : string) (color_index : Z)
    (stop start : option index_arg) (show_confidence_interval : bool)
    : result (list trace * list trace) :=
  '(area_fns, line_fns) ←
    plot_item data pop_name color_index stop start show_confidence_interval [] [];
  fills ← traces_of area_fns;
  lines ← traces_of line_fns;
  Ok (fills, lines).
End vocabulary.

Section vocabulary_plot.
Context `{DateParsing}.

(** The fill traces and the line traces of the items from position [i] on,
    each list in the order of the items. *)
Fixpoint items_traces (items : list (plot_data * string)) (i : Z)
    (stop start : option index_arg) (cindex : option Z)
    (show_confidence_interval : bool) : result (list trace * list trace) :=
  match items with
  | [] => Ok ([], [])
  | (data, pop_name) :: rest =>
      '(fills, lines) ←
        item_traces data pop_name (color_of cindex i) stop start
                    show_confidence_interval;
      '(more_fills, more_lines) ←
        items_traces rest (i + 1) stop start cindex show_confidence_interval;
      Ok (fills ++ more_fills, lines ++ more_lines)
  end.
End vocabulary_plot.

(** The invariant of the data model: the dates are consecutive days, one
    per value, and [x] holds them as datetimes. *)
Definition well_formed (s : Series.t) : Prop :=
  ∃ first, Series._x s = seqZ first (Series.__len__ s)
           ∧ Series.x s = to_datetime <$> Series._x s.

(** ** Data of the examples *)

Module Ex.
#[export] Existing Instance Iso.parsing.

(** 2020-03-01 *)
Definition d : date := 737485.

Definition sparse_dates : list date := [d; d + 2; d + 5].
Definition sparse_values : list Q := [1%Q; 2%Q; (5 # 2)%Q].

Definition lower : Series.t := dense_series d [1%Q; 2%Q; 3%Q].
Definition upper : Series.t := dense_series d [4%Q; 5%Q; 6%Q].
Definition central : Series.t := dense_series d [(5 # 2)%Q; (7 # 2)%Q; (9 # 2)%Q].

Definition empty : Series.t := dense_series d [].

Definition line_only : plot_data * string := (Coll [central], "A").
Definition triple_with_band : plot_data * string :=
  (Coll [central; lower; upper], "B").
Definition four_series : plot_data * string :=
  (Coll [central; lower; upper; central], "X").

(** A store with the caller's array of three values, and an object built
    from it. *)
Definition caller_array : ndarray := mk_ndarray 1%positive 0 3.
Definition store : heap := {[ 1%positive := FloatArray [1%Q; 2%Q; 3%Q] ]}.
Definition built : SeriesObj.t :=
  {| SeriesObj._x := mk_ndarray 2%positive 0 3;
     SeriesObj.x := mk_ndarray 3%positive 0 3;
     SeriesObj.y := mk_ndarray 4%positive 0 3 |}.
End Ex.

(** ** More vocabulary *)

(** The offset [z] clamped into the positions of a series of [n] days. *)
Definition clamped (n z : Z) : Z := Z.min (Z.max z 0) (n - 1).

(** A plot item without its bounds: of a triple (central, lower, upper)
    only the central series is left; any other item is as it was. *)
Definition central_only (item : plot_data * string) : plot_data * string :=
  match item with
  | (Coll [c; _; _], pop_name) => (Coll [c], pop_name)
  | _ => item
  end.

(** The trace is drawn with the colors of one entry of the palette: a line
    with the solid color, a fill with the translucent color. *)
Definition uses_color (color : string * string) (tr : trace) : Prop :=
  match tr with
  | Line _ _ line_color _ => line_color = color.1
  | Fill _ _ fillcolor line_color _ _ => fillcolor = color.2 ∧ line_color = color.2
  end.

(** How many traces a plot item gives. *)
Definition traces_per_item (show_confidence_interval : bool) (data : plot_data) : nat :=
  match data with
  | Coll [_] => 1
  | Coll [_; _] => 1
  | Coll [_; _; _] => if show_confidence_interval then 2 else 1
  | _ => 0
  end.

(** Data of more examples. *)
Module Ex2.
#[export] Existing Instance Iso.parsing.

(** Five days from 2020-03-01. *)
Definition week : Series.t :=
  dense_series Ex.d [1%Q; 2%Q; 3%Q; 4%Q; 5%Q].

(** A series that cannot be trimmed: it has no days. *)
Definition no_days : Series.t := dense_series Ex.d [].
End Ex2.

(** * Properties *)

(** ** Computations in [result] *)

Lemma bind_Ok {A B} (r : result A) (f : A → result B) (b : B) :
  r ≫= f = Ok b ↔ ∃ a, r = Ok a ∧ f a = Ok b.
Proof.
  destruct r as [a|e]; simpl; split.
  - eauto.
  - by intros (a' & [= ->] & ?).
  - done.
  - by intros (? & ? & ?).
Qed.

Lemma Ok_bind {A B} (a : A) (f : A → result B) : Ok a ≫= f = f a.
Proof. done. Qed.

(** ** Python sequences *)

Lemma py_index_Ok {A} (l : list A) (i j : Z) (a : A) :
  j = (if i <? 0 then i + Z.of_nat (length l) else i) →
  l !! Z.to_nat j = Some a →
  0 ≤ j →
  py_index l i = Ok a.
Proof.
  intros Hj Ha Hj0. unfold py_index. cbv zeta. rewrite <- Hj.
  apply lookup_lt_Some in Ha as Hlt.
  rewrite (proj2 (Z.leb_le 0 j)), (proj2 (Z.ltb_lt j _)) by lia.
  simpl. by rewrite Ha.
Qed.

Lemma py_index_first {A} (a : A) (l : list A) : py_index (a :: l) 0 = Ok a.
Proof. by apply (py_index_Ok _ 0 0). Qed.

Lemma py_index_last {A} (l : list A) (a : A) : py_index (l ++ [a]) (-1) = Ok a.
Proof.
  apply (py_index_Ok _ _ (Z.of_nat (length l))); [| | lia].
  - simpl. rewrite length_app. simpl. lia.
  - rewrite Nat2Z.id. by apply list_lookup_middle.
Qed.

Lemma py_index_nil {A} (i : Z) : py_index (@nil A) i = Err IndexError.
Proof.
  unfold py_index. simpl length. cbv zeta.
  destruct (i <? 0) eqn:Hi.
  - apply Z.ltb_lt in Hi. by rewrite (proj2 (Z.leb_gt 0 _)) by lia.
  - apply Z.ltb_ge in Hi. rewrite (proj2 (Z.ltb_ge i _)) by (simpl; lia).
    by rewrite andb_false_r.
Qed.

(** Sorting a list of dates. *)
Lemma mapM_as_date (ds : list date) : mapM as_date (XDate <$> ds) = Some ds.
Proof. by apply mapM_fmap_Some. Qed.

Lemma py_sorted_dates (ds : list date) :
  py_sorted (XDate <$> ds) = Ok (XDate <$> merge_sort Z.le ds).
Proof. unfold py_sorted. by rewrite mapM_as_date. Qed.

Lemma merge_sort_fixed (ds : list date) :
  merge_sort Z.le ds = ds ↔ Sorted Z.le ds.
Proof.
  split.
  - intros <-. apply Sorted_merge_sort, _.
  - intros Hs. apply (Sorted_unique Z.le).
    + apply Sorted_merge_sort, _.
    + done.
    + apply merge_sort_Permutation.
Qed.

Section date_helpers.
Context `{DateParsing}.

Lemma make_date_sequence_dates (ds : list date) :
  make_date_sequence (XDate <$> ds) = Ok ds.
Proof.
  unfold make_date_sequence. induction ds as [|d ds IH]; [done|].
  rewrite fmap_cons. change (mapM make_date (XDate d :: (XDate <$> ds)))
    with (make_date (XDate d) ≫= λ y, mapM make_date (XDate <$> ds) ≫= λ k, mret (y :: k)).
  by rewrite IH.
Qed.
End date_helpers.

(** ** The constructor on a sequence of dates *)

Lemma date_range_seqZ (start n : Z) :
  (λ i, start + i) <$> seqZ 0 n = seqZ start n.
Proof.
  change (λ i, start + i) with (Z.add start).
  by rewrite fmap_add_seqZ, Z.add_0_r.
Qed.

Lemma py_index_head {A} (l : list A) (a : A) : head l = Some a → py_index l 0 = Ok a.
Proof. destruct l; intros [= ->]. apply py_index_first. Qed.

Lemma py_index_tail {A} (l : list A) (a : A) : last l = Some a → py_index l (-1) = Ok a.
Proof.
  intros Hl. apply last_Some in Hl as [l' ->]. apply py_index_last.
Qed.

Section init_dates.
Context `{DateParsing}.

(** The checks of [__init__] when [start_date] is false and [x] holds
    dates: only the sortedness assertion is left. *)
Lemma init_dates_checked (y : list Q) (ds : list date) (sd : option start_arg) :
  start_truthy sd = false →
  Series.__init__ y (Some (XDate <$> ds)) sd =
    (_ ← assert (bool_decide (Sorted Z.le ds));
     start_date ← py_index ds 0;
     end_date ← py_index ds (-1);
     let num_elements := end_date - start_date + 1 in
     let _x := seqZ start_date num_elements in
     y ← (if Z.of_nat (length y) <? num_elements then
            x_to_y ← map_x_to_y (XDate <$> ds) y;
            Ok (fill_loop x_to_y _x 0%Q)
          else Ok y);
     Ok {| Series._x := _x; Series.x := to_datetime <$> _x; Series.y := y |}).
Proof.
  intros Hsd. unfold Series.__init__. rewrite Hsd.
  destruct sd; simpl negb; cbv iota.
  all: simpl from_option; rewrite Ok_bind, py_sorted_dates, Ok_bind.
  all: rewrite (bool_decide_ext (XDate <$> ds = XDate <$> merge_sort Z.le ds)
                                (Sorted Z.le ds)).
  all: try (rewrite <- merge_sort_fixed; split;
            [intros Heq; symmetry; by apply (inj (fmap XDate)) | by intros ->]).
  all: destruct (assert _); [|done].
  all: rewrite !Ok_bind, make_date_sequence_dates, Ok_bind.
  all: destruct (py_index ds 0); [|done].
  all: destruct (py_index ds (-1)); [|done].
  all: rewrite !Ok_bind; cbv zeta; by rewrite date_range_seqZ.
Qed.

Lemma init_dates_unsorted (y : list Q) (ds : list date) (sd : option start_arg) :
  start_truthy sd = false →
  ¬ Sorted Z.le ds →
  Series.__init__ y (Some (XDate <$> ds)) sd = Err AssertionError.
Proof.
  intros Hsd Hns. rewrite init_dates_checked by done.
  by rewrite bool_decide_eq_false_2.
Qed.

Lemma init_dates_sorted (y : list Q) (ds : list date) (sd : option start_arg)
    (d0 d1 : date) :
  start_truthy sd = false →
  Sorted Z.le ds → head ds = Some d0 → last ds = Some d1 →
  Series.__init__ y (Some (XDate <$> ds)) sd =
    (let _x := seqZ d0 (d1 - d0 + 1) in
     y ← (if Z.of_nat (length y) <? d1 - d0 + 1 then
            x_to_y ← map_x_to_y (XDate <$> ds) y;
            Ok (fill_loop x_to_y _x 0%Q)
          else Ok y);
     Ok {| Series._x := _x; Series.x := to_datetime <$> _x; Series.y := y |}).
Proof.
  intros Hsd Hs Hd0 Hd1. rewrite init_dates_checked by done.
  rewrite bool_decide_eq_true_2 by done. simpl.
  by rewrite (py_index_head _ _ Hd0), (py_index_tail _ _ Hd1).
Qed.
End init_dates.

(** ** Sorted sequences of dates *)

Lemma StronglySorted_lookup (ds : list date) :
  StronglySorted Z.le ds ↔
  ∀ i j di dj, (i < j)%nat → ds !! i = Some di → ds !! j = Some dj → di ≤ dj.
Proof.
  split.
  - induction 1 as [|d ds Hs IH Hall]; intros i j di dj Hij Hi Hj.
    + by rewrite lookup_nil in Hi.
    + destruct j as [|j]; [lia|]. rewrite lookup_cons in Hj.
      destruct i as [|i]; simplify_eq/=.
      * rewrite Forall_forall in Hall. apply Hall. by eapply list_elem_of_lookup_2.
      * apply (IH i j); [lia|done..].
  - induction ds as [|d ds IH]; intros Hle; constructor.
    + apply IH. intros i j di dj Hij Hi Hj. apply (Hle (S i) (S j)); [lia|done..].
    + apply Forall_forall. intros dj [j Hj]%list_elem_of_lookup_1.
      apply (Hle 0%nat (S j)); [lia|done..].
Qed.

Lemma Sorted_le_lookup (ds : list date) :
  Sorted Z.le ds ↔
  ∀ i j di dj, (i < j)%nat → ds !! i = Some di → ds !! j = Some dj → di ≤ dj.
Proof.
  rewrite <- StronglySorted_lookup. split.
  - apply Sorted_StronglySorted, _.
  - apply StronglySorted_Sorted.
Qed.

Lemma out_of_order_not_Sorted (ds : list date) :
  out_of_order ds ↔ ¬ Sorted Z.le ds.
Proof.
  split.
  - intros (i & j & di & dj & Hij & Hi & Hj & Hlt) Hs.
    pose proof (proj1 (Sorted_le_lookup ds) Hs i j di dj Hij Hi Hj). lia.
  - intros Hns. induction ds as [|d ds IH]; [by destruct Hns|].
    destruct (decide (Sorted Z.le ds)) as [Hs|Hs].
    + destruct (decide (Forall (Z.le d) ds)) as [Hall|Hall].
      * destruct Hns. apply StronglySorted_Sorted. constructor; [|done].
        by apply Sorted_StronglySorted; [apply _|].
      * apply not_Forall_Exists in Hall; [|apply _].
        apply Exists_exists in Hall as (dj & [j Hj]%list_elem_of_lookup_1 & Hlt).
        exists 0%nat, (S j), d, dj. simpl in Hlt. repeat split; [lia|done..|lia].
    + destruct (IH Hs) as (i & j & di & dj & Hij & Hi & Hj & Hlt).
      exists (S i), (S j), di, dj. repeat split; [lia|done..].
Qed.

Lemma ascending_Sorted (ds : list date) : ascending ds → Sorted Z.le ds.
Proof.
  intros Ha. apply Sorted_le_lookup. intros i j di dj Hij Hi Hj.
  specialize (Ha i j di dj Hij Hi Hj). lia.
Qed.

Lemma ascending_NoDup (ds : list date) : ascending ds → NoDup ds.
Proof.
  intros Ha. apply NoDup_alt. intros i j d Hi Hj.
  destruct (Nat.lt_trichotomy i j) as [Hlt|[->|Hlt]]; [|done|].
  - specialize (Ha i j d d Hlt Hi Hj). lia.
  - specialize (Ha j i d d Hlt Hj Hi). lia.
Qed.

(** ** C8 and C6: the checks of the constructor *)

Section init_checks.
Context `{DateParsing}.

(** C8. When a series is constructed from an explicit sequence of dates
    and [start_date] is absent (or false), a sequence that holds a date
    strictly earlier than a date before it fails the sortedness assertion:
    the constructor raises [AssertionError] (the spec's InvariantError),
    whatever the values are. *)
Theorem init_unsorted_dates_AssertionError
    (y : list Q) (ds : list date) (sd : option start_arg) :
  start_truthy sd = false →
  out_of_order ds →
  Series.__init__ y (Some (XDate <$> ds)) sd = Err AssertionError.
Proof.
  intros Hsd Hoo. apply init_dates_unsorted; [done|].
  by apply out_of_order_not_Sorted.
Qed.
End init_checks.

Create HintDb no_value_error.

Lemma no_ValueError_Ok {A} (a : A) : no_ValueError (Ok a).
Proof. by intros msg. Qed.

Lemma no_ValueError_bind {A B} (r : result A) (f : A → result B) :
  no_ValueError r → (∀ a, no_ValueError (f a)) → no_ValueError (r ≫= f).
Proof.
  intros Hr Hf msg. destruct r as [a|e]; [apply Hf|].
  intros [= ->]. by apply (Hr msg).
Qed.

Lemma no_ValueError_fmap {A B} (r : result A) (f : A → B) :
  no_ValueError r → no_ValueError (f <$> r).
Proof. intros Hr msg. destruct r as [a|e]; [done|]. intros [= ->]. by apply (Hr msg). Qed.

Lemma no_ValueError_assert c : no_ValueError (assert c).
Proof. by destruct c. Qed.

Lemma no_ValueError_py_index {A} (l : list A) i : no_ValueError (py_index l i).
Proof. intros msg. unfold py_index. by repeat case_match. Qed.

Lemma no_ValueError_py_sorted l : no_ValueError (py_sorted l).
Proof. intros msg. unfold py_sorted. by repeat case_match. Qed.

Lemma no_ValueError_map_x_to_y x y : no_ValueError (map_x_to_y x y).
Proof.
  unfold map_x_to_y. apply no_ValueError_bind; [apply no_ValueError_assert|].
  intros _. apply no_ValueError_Ok.
Qed.

Lemma no_ValueError_from_option {A} (o : option A) :
  no_ValueError (from_option Ok (Err TypeError) o).
Proof. by destruct o. Qed.

#[export] Hint Resolve no_ValueError_Ok no_ValueError_assert no_ValueError_py_index
  no_ValueError_py_sorted no_ValueError_map_x_to_y no_ValueError_from_option
  no_ValueError_fmap : no_value_error.

Section no_value_error.
Context `{DateParsing}.

Lemma no_ValueError_parse_date s : no_ValueError (parse_date s).
Proof. intros msg. unfold parse_date. by case_match. Qed.

Lemma no_ValueError_make_date_sequence x : no_ValueError (make_date_sequence x).
Proof.
  unfold make_date_sequence. induction x as [|a x IH]; [apply no_ValueError_Ok|].
  change (mapM make_date (a :: x))
    with (make_date a ≫= λ y, mapM make_date x ≫= λ k, mret (y :: k)).
  apply no_ValueError_bind.
  - destruct a; unfold make_date; auto using no_ValueError_parse_date, no_ValueError_Ok.
  - intros d. apply no_ValueError_bind; [done|]. intros k. apply no_ValueError_Ok.
Qed.
End no_value_error.

#[export] Hint Resolve no_ValueError_parse_date no_ValueError_make_date_sequence
  : no_value_error.

Ltac no_value_error :=
  repeat first
    [ apply no_ValueError_bind; [|intros ?]
    | progress eauto with no_value_error
    | case_match ].

Section init_configuration.
Context `{DateParsing}.

(** C6. Constructing a series with neither [x] nor [start_date] raises
    [ValueError('Either x or start_date must be specified')] (the spec's
    ConfigurationError); with at least one of them the constructor raises
    no [ValueError] at all. *)
Theorem init_needs_x_or_start_date :
  (∀ y, Series.__init__ y None None
        = Err (ValueError "Either x or start_date must be specified"))
  ∧ (∀ y x sd, x ≠ None ∨ sd ≠ None →
       no_ValueError (Series.__init__ y x sd)).
Proof.
  split; [done|]. intros y x sd Hsome.
  unfold Series.__init__.
  destruct x as [x|], sd as [sd|]; [| | |by destruct Hsome].
  all: no_value_error.
Qed.
End init_configuration.

(** ** C10: construction from a start date *)

Section init_start_date.
Context `{DateParsing}.

Lemma init_start (y : list Q) (x : option (list xitem)) (sd : start_arg) (d : date) :
  start_truthy (Some sd) = true →
  match sd with StartStr s => parse_date s | StartDate d => Ok d end = Ok d →
  days_in_calendar d (Z.of_nat (length y)) →
  Series.__init__ y x (Some sd) = Ok (dense_series d y).
Proof.
  intros Hsd Hd _. unfold Series.__init__. rewrite Hsd. simpl negb. cbv iota.
  destruct x; rewrite Hd, !Ok_bind, Z.ltb_irrefl, Ok_bind, date_range_seqZ; done.
Qed.

(** The bounds of the calendar are the ordinals of 0001-01-01 and of
    9999-12-31. *)
Lemma calendar_ordinals :
  Iso.toordinal 1 1 1 = date_min ∧ Iso.toordinal 9999 12 31 = date_max.
Proof. split; reflexivity. Qed.

(** C10. With a true [start_date] (a date, or a non-empty string that the
    date parser accepts) the argument [x] is ignored, whatever it holds:
    when the [len(y)] days from [start_date] on are days of the calendar
    (none is after 9999-12-31, where adding the day offset would raise
    [OverflowError]), the series has [len(y)] consecutive dates from
    [start_date] and the values [y] themselves; no sortedness check and no
    forward fill is applied. *)
Theorem init_start_date_ignores_x :
  (∀ y x d, days_in_calendar d (Z.of_nat (length y)) →
       Series.__init__ y x (Some (StartDate d)) = Ok (dense_series d y))
  ∧ (∀ y x s d, s ≠ "" → get_date_from_isoformat s = Some d →
       days_in_calendar d (Z.of_nat (length y)) →
       Series.__init__ y x (Some (StartStr s)) = Ok (dense_series d y)).
Proof.
  split.
  - intros y x d Hdays. by apply init_start.
  - intros y x s d Hs Hd Hdays. apply init_start.
    + simpl. apply negb_true_iff, String.eqb_neq. done.
    + unfold parse_date. by rewrite Hd.
    + done.
Qed.
End init_start_date.

(** ** C3: get_index *)

Section get_index.
Context `{DateParsing}.

Lemma get_index_date (s : Series.t) (v : index_arg) (d first : date) :
  index_date v = Some d →
  head (Series._x s) = Some first →
  Series.get_index s v
  = Ok (Z.min (Z.max (d - first) 0) (Z.of_nat (length (Series._x s)) - 1)).
Proof.
  intros Hv Hfirst. unfold Series.get_index, Series.start_date.
  rewrite (py_index_head _ _ Hfirst).
  destruct v as [i|str|d']; simplify_eq/=; [|done].
  unfold parse_date. by rewrite Hv.
Qed.

(** C3, as the code has it.  On a non-empty series whose dates are the
    consecutive days from [first], one per value, [get_index] of a calendar
    date (or of a string the date parser accepts) does not raise and
    returns the day offset from [first] clamped into [0, len - 1]: [0] for
    a date before the first date, [len - 1] for a date after the last one.
    A raw integer is returned as it is. *)
Theorem get_index_clamps_dates :
  (∀ (s : Series.t) (first : date) (v : index_arg) (d : date),
     Series._x s = seqZ first (Series.__len__ s) →
     0 < Series.__len__ s →
     index_date v = Some d →
     ∃ i, Series.get_index s v = Ok i
          ∧ 0 ≤ i ≤ Series.__len__ s - 1
          ∧ (d < first → i = 0)
          ∧ (first + Series.__len__ s - 1 < d → i = Series.__len__ s - 1)
          ∧ (first ≤ d ≤ first + Series.__len__ s - 1 → i = d - first))
  ∧ (∀ (s : Series.t) (i : Z), Series.get_index s (IInt i) = Ok i).
Proof.
  split; [|done]. intros s first v d Hx Hlen Hv.
  eexists. split.
  - apply get_index_date; [done|]. rewrite Hx, seqZ_cons by done. done.
  - rewrite Hx, length_seqZ. lia.
Qed.
End get_index.

(** ** C1: construction from sparse dates *)

(** The dictionary of [map_x_to_y]. *)
Lemma foldl_insert_lookup (l : list (xitem * Q)) (k : xitem) (v : Q) :
  NoDup l.*1 →
  foldl (λ (x_to_y : gmap xitem Q) xy, <[xy.1 := xy.2]> x_to_y) ∅ l !! k = Some v
  ↔ (k, v) ∈ l.
Proof.
  induction l as [|[k' v'] l IH] using rev_ind; intros Hnd.
  - simpl. rewrite lookup_empty. split; [done|]. by intros ?%not_elem_of_nil.
  - rewrite fmap_app in Hnd. apply NoDup_app in Hnd as (Hnd & Hnotin & _).
    rewrite foldl_snoc, elem_of_app, list_elem_of_singleton. simpl.
    destruct (decide (k' = k)) as [->|Hne].
    + rewrite lookup_insert_eq. split.
      * intros [= ->]. by right.
      * intros [Hin|[= ->]]; [|done]. exfalso. apply (Hnotin k).
        -- apply list_elem_of_fmap. by exists (k, v).
        -- simpl. apply list_elem_of_singleton. done.
    + rewrite lookup_insert_ne by done. rewrite IH by done.
      split; [by left|]. intros [?|[= -> ->]]; done.
Qed.

Lemma map_x_to_y_dates (ds : list date) (ys : list Q) :
  NoDup ds → length ds = length ys →
  ∃ m, map_x_to_y (XDate <$> ds) ys = Ok m
       ∧ ∀ d v, m !! XDate d = Some v ↔ ∃ j, ds !! j = Some d ∧ ys !! j = Some v.
Proof.
  intros Hnd Hlen. eexists. split.
  - unfold map_x_to_y. rewrite length_fmap, bool_decide_eq_true_2 by done. done.
  - intros d v. rewrite foldl_insert_lookup.
    + split.
      * intros (j & a & w & [= <- <-] & Ha & Hw)%elem_of_lookup_zip_with_1.
        rewrite list_lookup_fmap in Ha. exists j. split; [|done].
        destruct (ds !! j); by simplify_eq/=.
      * intros (j & Hd & Hv).
        apply (elem_of_lookup_zip_with_2 pair _ _ (XDate d) v (XDate d, v) j); [|done].
        by rewrite list_lookup_fmap, Hd.
    + rewrite fst_zip by (rewrite length_fmap; lia).
      apply NoDup_fmap; [apply _|done].
Qed.

(** The forward-fill loop. *)
Lemma fill_loop_length (m : gmap xitem Q) (days : list date) (last : Q) :
  length (fill_loop m days last) = length days.
Proof. revert last. induction days; intros; simpl; [done|]. by rewrite IHdays. Qed.

Lemma fill_loop_lookup (m : gmap xitem Q) (days : list date) (last : Q) (i : nat) (v : Q) :
  fill_loop m days last !! i = Some v →
  (∃ j dj, (j ≤ i)%nat ∧ days !! j = Some dj ∧ m !! XDate dj = Some v ∧
     ∀ k dk, (j < k ≤ i)%nat → days !! k = Some dk → m !! XDate dk = None)
  ∨ (v = last ∧ ∀ k dk, (k ≤ i)%nat → days !! k = Some dk → m !! XDate dk = None).
Proof.
  revert last i. induction days as [|d days IH]; intros last i Hv; [done|].
  simpl in Hv. destruct i as [|i].
  - simpl in Hv. injection Hv as <-.
    destruct (m !! XDate d) as [w|] eqn:Hd; simpl.
    + left. exists 0%nat, d. repeat split; [done..|]. intros k dk ?; lia.
    + right. split; [done|]. intros k dk Hk Hdk.
      assert (k = 0%nat) as -> by lia. by simplify_eq/=.
  - simpl in Hv. apply IH in Hv as [(j & dj & Hji & Hdj & Hm & Hgap)|[-> Hnone]].
    + left. exists (S j), dj. repeat split; [lia|done..|].
      intros [|k] dk Hk Hdk; [lia|]. apply (Hgap k); [lia|done].
    + destruct (m !! XDate d) as [w|] eqn:Hd; simpl.
      * left. exists 0%nat, d. repeat split; [lia|done..|].
        intros [|k] dk Hk Hdk; [lia|]. apply (Hnone k); [lia|done].
      * right. split; [done|]. intros [|k] dk Hk Hdk.
        -- by simplify_eq/=.
        -- apply (Hnone k); [lia|done].
Qed.

(** Strictly ascending dates are at least as far apart as their positions. *)
Lemma ascending_gap (ds : list date) (i j : nat) (di dj : date) :
  ascending ds → (i ≤ j)%nat → ds !! i = Some di → ds !! j = Some dj →
  Z.of_nat j - Z.of_nat i ≤ dj - di.
Proof.
  intros Ha. revert dj. induction j as [|j IH]; intros dj Hij Hi Hj.
  - assert (i = 0%nat) as -> by lia. simplify_eq. lia.
  - destruct (decide (i = S j)) as [->|Hne]; [simplify_eq; lia|].
    destruct (ds !! j) as [dj'|] eqn:Hj'.
    + specialize (IH dj' ltac:(lia) Hi eq_refl).
      specialize (Ha j (S j) dj' dj ltac:(lia) Hj' Hj). lia.
    + apply lookup_ge_None in Hj'. apply lookup_lt_Some in Hj. lia.
Qed.

Lemma min_date_sorted (ds : list date) (d0 : date) :
  Sorted Z.le ds → head ds = Some d0 → min_date ds = d0.
Proof.
  intros Hs Hd0. unfold min_date. rewrite Hd0. simpl.
  assert (Forall (Z.le d0) ds) as Hall.
  { destruct ds as [|d ds]; simplify_eq/=. constructor; [lia|].
    apply Sorted_StronglySorted in Hs; [|apply _]. by inversion Hs. }
  clear Hs Hd0. induction Hall as [|d ds Hd Hall IH]; simpl; [done|].
  rewrite IH. lia.
Qed.

Lemma max_date_sorted (ds : list date) (d1 : date) :
  Sorted Z.le ds → last ds = Some d1 → max_date ds = d1.
Proof.
  intros Hs Hd1. unfold max_date.
  assert (∀ d, d ∈ ds → d ≤ d1) as Hall.
  { intros d [i Hi]%list_elem_of_lookup_1. rewrite last_lookup in Hd1.
    destruct (decide (i = Nat.pred (length ds))) as [->|Hne]; [by simplify_eq|].
    apply lookup_lt_Some in Hi as Hlt.
    apply (proj1 (Sorted_le_lookup ds) Hs i (Nat.pred (length ds))); [lia|done..]. }
  assert (default 0 (head ds) ≤ d1) as Hinit.
  { destruct ds as [|d ds]; [done|]. simpl. apply Hall. left. }
  assert (d1 ∈ ds) as Hin.
  { rewrite last_lookup in Hd1. by eapply list_elem_of_lookup_2. }
  revert Hinit. generalize (default 0 (head ds)). clear Hs Hd1.
  induction ds as [|d ds IH]; intros init Hinit; [by apply not_elem_of_nil in Hin|].
  simpl.
  assert (foldr Z.max init ds ≤ d1) as Hle.
  { clear IH Hin. induction ds as [|d' ds IH]; simpl; [done|].
    apply Z.max_lub.
    - apply Hall. right. left.
    - apply IH. intros d'' Hd''. apply Hall.
      apply elem_of_cons in Hd'' as [->|?]; [left|right; by right]. }
  apply elem_of_cons in Hin as [<-|Hin]; [lia|].
  rewrite IH; [|intros; apply Hall; by right|done|done].
  specialize (Hall d ltac:(left)). lia.
Qed.

Section init_sparse.
Context `{DateParsing}.

(** Forward fill over the days [d0, d0 + 1, ...] when [d0] is the first
    input date. *)
Lemma fill_loop_forward_filled (ds : list date) (ys : list Q) (m : gmap xitem Q)
    (d0 : date) (n : Z) (i : nat) (v : Q) :
  ascending ds → head ds = Some d0 →
  (∀ d v, m !! XDate d = Some v ↔ ∃ j, ds !! j = Some d ∧ ys !! j = Some v) →
  length ds = length ys →
  fill_loop m (seqZ d0 n) 0%Q !! i = Some v →
  forward_filled ds ys (d0 + Z.of_nat i) v.
Proof.
  intros Ha Hd0 Hm Hlen Hv.
  assert (Z.of_nat i < n) as Hin.
  { apply lookup_lt_Some in Hv. rewrite fill_loop_length, length_seqZ in Hv. lia. }
  assert (∀ d, d ∈ ds → d0 ≤ d) as Hmin.
  { intros d [j Hj]%list_elem_of_lookup_1. destruct j as [|j].
    - rewrite <- head_lookup, Hd0 in Hj. simplify_eq. lia.
    - rewrite head_lookup in Hd0. specialize (Ha 0%nat (S j) d0 d ltac:(lia) Hd0 Hj). lia. }
  assert (∀ d, d ∈ ds → is_Some (m !! XDate d)) as Hdom.
  { intros d [j Hj]%list_elem_of_lookup_1.
    destruct (ys !! j) as [w|] eqn:Hw.
    - exists w. apply Hm. eauto.
    - apply lookup_ge_None in Hw. apply lookup_lt_Some in Hj. lia. }
  assert (∀ j j' d, ds !! j = Some d → ds !! j' = Some d → j = j') as Hinj.
  { intros j j' d Hj Hj'. by eapply NoDup_lookup; [apply ascending_NoDup|..]. }
  apply fill_loop_lookup in Hv as [(j & dj & Hji & Hdj & Hmj & Hgap)|[-> Hnone]].
  - apply lookup_seqZ in Hdj as [-> Hjn].
    assert (∀ d, d0 + Z.of_nat j < d ≤ d0 + Z.of_nat i → d ∉ ds) as Hgap'.
    { intros d Hd Hds. apply Hdom in Hds as [w Hw].
      rewrite (Hgap (Z.to_nat (d - d0)) d) in Hw; [done|lia|].
      apply lookup_seqZ. lia. }
    apply Hm in Hmj as (j0 & Hj0 & Hvj0).
    assert (d0 + Z.of_nat j ∈ ds) as Hjds by by eapply list_elem_of_lookup_2.
    repeat split.
    + intros j' Hj'. destruct (decide (j = i)) as [->|Hne].
      * by rewrite (Hinj j' j0 _ Hj' Hj0).
      * destruct (Hgap' (d0 + Z.of_nat i)); [lia|]. by eapply list_elem_of_lookup_2.
    + intros Hnotin j' dj' Hj' Hlt Hmax.
      assert (dj' = d0 + Z.of_nat j) as ->.
      { assert (dj' ∈ ds) as Hin' by by eapply list_elem_of_lookup_2.
        destruct (decide (d0 + Z.of_nat j = d0 + Z.of_nat i)) as [Heq|Hne].
        - by rewrite Heq in Hjds.
        - specialize (Hmax (d0 + Z.of_nat j) Hjds ltac:(lia)).
          destruct (decide (dj' = d0 + Z.of_nat j)) as [|Hne']; [done|].
          destruct (Hgap' dj'); [lia|done]. }
      by rewrite (Hinj j' j0 _ Hj' Hj0).
    + intros Hnotin Hlater. specialize (Hlater _ Hjds). lia.
  - assert (d0 ∈ ds) as Hd0in.
    { rewrite head_lookup in Hd0. by eapply list_elem_of_lookup_2. }
    apply Hdom in Hd0in as [w Hw].
    rewrite (Hnone 0%nat d0) in Hw; [done|lia|].
    apply lookup_seqZ. lia.
Qed.

(** C1. From a non-empty, strictly ascending list of dates [ds] and as
    many values [ys], the constructor returns a series whose dates are all
    the calendar days from the earliest to the latest input date, one after
    the other; it has [(max - min).days + 1] values, and the value of each
    day is the forward fill of the input. *)
Theorem init_sparse_dates (ys : list Q) (ds : list date) :
  ds ≠ [] → ascending ds → length ds = length ys →
  ∃ s, Series.__init__ ys (Some (XDate <$> ds)) None = Ok s
       ∧ Series._x s = seqZ (min_date ds) (max_date ds - min_date ds + 1)
       ∧ Series.x s = to_datetime <$> Series._x s
       ∧ Series.__len__ s = max_date ds - min_date ds + 1
       ∧ length (Series._x s) = length (Series.y s)
       ∧ ∀ i d v, Series._x s !! i = Some d → Series.y s !! i = Some v →
           forward_filled ds ys d v.
Proof.
  intros Hne Ha Hlen.
  pose proof (ascending_Sorted _ Ha) as Hs.
  destruct (head ds) as [d0|] eqn:Hd0; [|by destruct ds].
  destruct (last ds) as [d1|] eqn:Hd1; [|by apply last_None in Hd1].
  rewrite (min_date_sorted _ _ Hs Hd0), (max_date_sorted _ _ Hs Hd1).
  rewrite (init_dates_sorted ys ds None d0 d1) by done.
  assert (Z.of_nat (length ds) - 1 ≤ d1 - d0) as Hspan.
  { rewrite head_lookup in Hd0. rewrite last_lookup in Hd1.
    pose proof (ascending_gap ds 0 (Nat.pred (length ds)) d0 d1 Ha ltac:(lia) Hd0 Hd1).
    destruct ds; [done|]. simpl length in *. lia. }
  cbv zeta. destruct (Z.ltb_spec (Z.of_nat (length ys)) (d1 - d0 + 1)) as [Hlt|Hge].
  - destruct (map_x_to_y_dates ds ys) as (m & -> & Hm);
      [by apply ascending_NoDup|done|].
    rewrite !Ok_bind. eexists. split; [done|].
    unfold Series.__len__. simpl. rewrite fill_loop_length, length_seqZ.
    split; [done|]. split; [done|]. split; [lia|]. split; [done|].
    intros i d v [-> _]%lookup_seqZ Hv.
    by eapply fill_loop_forward_filled.
  - rewrite Ok_bind. eexists. split; [done|].
    unfold Series.__len__. simpl. rewrite length_seqZ.
    split; [done|]. split; [done|]. split; [lia|]. split; [lia|].
    intros i d v [-> Hi]%lookup_seqZ Hv.
    assert (ds !! i = Some (d0 + Z.of_nat i)) as Hdi.
    { destruct (ds !! i) as [di|] eqn:Hdi; [|apply lookup_ge_None in Hdi; lia].
      rewrite head_lookup in Hd0. rewrite last_lookup in Hd1.
      apply lookup_lt_Some in Hdi as Hil.
      pose proof (ascending_gap ds 0 i d0 di Ha ltac:(lia) Hd0 Hdi).
      pose proof (ascending_gap ds i (Nat.pred (length ds)) di d1 Ha
                    ltac:(lia) Hdi Hd1).
      f_equal. lia. }
    assert (d0 + Z.of_nat i ∈ ds) as Hin by by eapply list_elem_of_lookup_2.
    split; [|by split].
    intros j Hj.
    assert (j = i) as -> by by eapply NoDup_lookup; [apply ascending_NoDup|..].
    done.
Qed.
End init_sparse.

(** ** The invariant of a series *)

Lemma well_formed_lengths (s : Series.t) :
  well_formed s →
  length (Series._x s) = length (Series.y s)
  ∧ length (Series.x s) = length (Series.y s).
Proof.
  intros (first & Hx_ & Hx). rewrite Hx, length_fmap, Hx_, length_seqZ.
  unfold Series.__len__. lia.
Qed.

Lemma dense_series_well_formed (start : date) (y : list Q) :
  well_formed (dense_series start y).
Proof. by exists start. Qed.

Lemma py_slice_length {A} (l : list A) (start stop : Z) :
  Z.of_nat (length (py_slice l start stop))
  = Z.max 0 (slice_bound (Z.of_nat (length l)) stop
             - slice_bound (Z.of_nat (length l)) start).
Proof.
  unfold py_slice. cbv zeta. rewrite length_take, length_drop.
  set (n := Z.of_nat (length l)).
  assert (0 ≤ slice_bound n start ≤ n ∧ 0 ≤ slice_bound n stop ≤ n) as [Ha Hb].
  { unfold slice_bound. split; repeat case_match; lia. }
  unfold n in *. lia.
Qed.

Lemma py_slice_seqZ (first n start stop : Z) :
  0 ≤ n →
  py_slice (seqZ first n) start stop
  = seqZ (first + slice_bound n start) (slice_bound n stop - slice_bound n start).
Proof.
  intros Hn. unfold py_slice. cbv zeta. rewrite length_seqZ, Z2Nat.id by done.
  set (a := slice_bound n start). set (b := slice_bound n stop).
  assert (0 ≤ a ≤ n ∧ 0 ≤ b ≤ n) as [Ha Hb].
  { unfold a, b, slice_bound. split; repeat case_match; lia. }
  apply list_eq. intros i.
  destruct (decide (Z.of_nat i < b - a)) as [Hi|Hi].
  - rewrite lookup_take_lt, lookup_drop by lia.
    rewrite !lookup_seqZ_lt by lia. f_equal. lia.
  - rewrite lookup_take_ge by lia. by rewrite lookup_seqZ_ge by lia.
Qed.

Lemma Sorted_seqZ (first n : Z) : Sorted Z.le (seqZ first n).
Proof.
  apply Sorted_le_lookup. intros i j di dj Hij [-> _]%lookup_seqZ [-> _]%lookup_seqZ.
  lia.
Qed.

Section trim.
Context `{DateParsing}.

(** Trimming a well-formed series gives the slices of its dates and of its
    values, and a well-formed series. *)
Lemma trim_well_formed (s s' : Series.t) (start stop : option index_arg) :
  well_formed s →
  Series.trim s start stop = Ok s' →
  well_formed s'
  ∧ ∃ start_index stop_index,
      Series.get_index s (or_zero start) = Ok start_index
      ∧ Series.get_stop_index s stop = Ok stop_index
      ∧ Series._x s' = py_slice (Series._x s) start_index stop_index
      ∧ Series.y s' = py_slice (Series.y s) start_index stop_index.
Proof.
  intros (first & Hx_ & Hx). unfold Series.trim.
  destruct (Series.get_index s _) as [a0|]; [|done]. rewrite Ok_bind.
  destruct (Series.get_stop_index s _) as [b0|]; [|done]. rewrite Ok_bind.
  rewrite init_dates_checked by done.
  rewrite Hx_, py_slice_seqZ by (unfold Series.__len__; lia).
  rewrite bool_decide_eq_true_2 by apply Sorted_seqZ.
  change (assert true) with (Ok tt). rewrite Ok_bind.
  pose proof (py_slice_length (Series.y s) a0 b0) as Hlen.
  fold (Series.__len__ s) in Hlen.
  set (n := Series.__len__ s) in *.
  set (a := slice_bound n a0) in *. set (b := slice_bound n b0) in *.
  destruct (decide (b - a ≤ 0)) as [Hle|Hlt].
  { by rewrite seqZ_nil, py_index_nil by done. }
  rewrite (py_index_head _ (first + a)) by (by rewrite seqZ_cons by lia).
  rewrite (py_index_tail _ (first + a + (b - a - 1))).
  2:{ rewrite last_lookup, length_seqZ. apply lookup_seqZ. lia. }
  rewrite !Ok_bind. cbv zeta.
  rewrite (proj2 (Z.ltb_ge _ _)) by lia. rewrite Ok_bind.
  intros [= <-]. simpl. split.
  - exists (first + a). unfold Series.__len__. simpl. split; [|done].
    f_equal. lia.
  - exists a0, b0. split; [done|]. split; [done|]. split; [|done].
    rewrite py_slice_seqZ by (unfold n, Series.__len__; lia).
    fold n a b. f_equal. lia.
Qed.

(** So a trimmed series has as many dates as values. *)
Lemma trimmed_lengths (s s' : Series.t) (start stop : option index_arg) :
  well_formed s →
  Series.trim s start stop = Ok s' →
  length (Series.x s') = length (Series.y s').
Proof.
  intros Hwf [Hwf' _]%trim_well_formed; [|done].
  by apply well_formed_lengths.
Qed.
End trim.

(** ** C5: the polygon of a confidence band *)

(** C5. For a lower series [L] and an upper series [U] that each have as
    many dates as values (as the trims of well-formed series have): when
    they have the same length (and the color index is in the palette)
    [plot_confidence_range] adds one fill trace whose x-coordinates are the
    dates of [U] followed by the dates of [L] reversed, and whose
    y-coordinates are the values of [U] followed by the values of [L]
    reversed; when their lengths differ it raises [AssertionError] (the
    spec's InvariantError). *)
Theorem plot_confidence_range_polygon (fig : Figure) (L U : Series.t)
    (legend : option string) (color_index : Z) :
  length (Series.x L) = length (Series.y L) →
  length (Series.x U) = length (Series.y U) →
  (Series.__len__ L = Series.__len__ U →
   ∀ color, py_index PLOT_COLORS color_index = Ok color →
     plot_confidence_range fig L U legend color_index
     = Ok (add_trace fig
             (Fill (Series.x U ++ reverse (Series.x L))
                   (Series.y U ++ reverse (Series.y L))
                   color.2 color.2 (bool_decide (legend ≠ None)) legend)))
  ∧ (Series.__len__ L ≠ Series.__len__ U →
     plot_confidence_range fig L U legend color_index = Err AssertionError).
Proof.
  intros HL HU. unfold Series.__len__, plot_confidence_range, concat_seq. split.
  - intros Hlen color Hcolor.
    rewrite !length_reverse.
    rewrite (bool_decide_eq_true_2 (length (Series.x L) = length (Series.x U))) by lia.
    rewrite (bool_decide_eq_true_2 (length (Series.x U) = length (Series.x L))) by lia.
    rewrite (bool_decide_eq_true_2 (length (Series.y U) = length (Series.y L))) by lia.
    simpl. by rewrite Hcolor.
  - intros Hlen.
    rewrite (bool_decide_eq_false_2 (length (Series.x L) = length (Series.x U))) by lia.
    done.
Qed.

(** ** The loop of [plot] *)

Lemma update_layout_data (fig : Figure) (title : string) (log_scale : bool)
    (size : option Z) (ymax : option Q) (n : nat) :
  data (update_layout fig title log_scale size ymax n) = data fig.
Proof. unfold update_layout. by repeat case_match. Qed.

Section plot_loop.
Context `{DateParsing}.

Lemma plot_loop_cons (data : plot_data) (pop_name : string)
    (rest : list (plot_data * string)) (i : Z)
    (stop start : option index_arg) (cindex : option Z) (show : bool)
    (area_fns line_fns : list deferred) :
  plot_loop ((data, pop_name) :: rest) i stop start cindex show area_fns line_fns
  = plot_item data pop_name (color_of cindex i) stop start show area_fns line_fns
    ≫= λ '(area_fns, line_fns),
         plot_loop rest (i + 1) stop start cindex show area_fns line_fns.
Proof. done. Qed.

Lemma plot_loop_app (l1 l2 : list (plot_data * string)) (i : Z)
    (stop start : option index_arg) (cindex : option Z) (show : bool)
    (area_fns line_fns : list deferred) :
  plot_loop (l1 ++ l2) i stop start cindex show area_fns line_fns
  = plot_loop l1 i stop start cindex show area_fns line_fns
    ≫= λ '(area_fns, line_fns),
         plot_loop l2 (i + Z.of_nat (length l1)) stop start cindex show
                   area_fns line_fns.
Proof.
  revert i area_fns line_fns. induction l1 as [|[data name] l1 IH];
    intros i area_fns line_fns.
  - simpl. by rewrite Z.add_0_r.
  - rewrite <- app_comm_cons, !plot_loop_cons.
    destruct (plot_item _ _ _ _ _ _ _ _) as [[afs lfs]|e]; [|done].
    rewrite !Ok_bind, IH. simpl length.
    by replace (i + 1 + Z.of_nat (length l1)) with (i + Z.of_nat (S (length l1))) by lia.
Qed.

(** ** C4: a bare series *)

Lemma getitem_Bare (s : Series.t) :
  getitem (Bare s) 0 = OFloat <$> py_index (Series.y s) 0.
Proof. done. Qed.

Lemma trimmed_Bare (s : Series.t) (start stop : option index_arg) :
  trimmed (Bare s) 0 start stop
  = Err (match Series.y s with [] => IndexError | _ => AttributeError end).
Proof.
  unfold trimmed. rewrite getitem_Bare.
  destruct (Series.y s) as [|v vs].
  - by rewrite py_index_nil.
  - by rewrite py_index_first.
Qed.

(** C4, on the code.  For a bare series the loop evaluates [data[0]], which
    is [Series.__getitem__(0)], the first value of the series and not the
    series; that value has no [trim], so [plot] raises [AttributeError]
    ([IndexError] when the series has no values) and draws nothing. *)
Theorem plot_bare_series_raises (s : Series.t) (pop_name : string)
    (rest : list (plot_data * string)) (title : string) (log_scale : bool)
    (size : option Z) (stop start : option index_arg) (ymax : option Q)
    (cindex : option Z) (show_confidence_interval : bool) :
  plot ((Bare s, pop_name) :: rest) title log_scale size stop start ymax cindex
       show_confidence_interval
  = Err (match Series.y s with [] => IndexError | _ => AttributeError end).
Proof.
  unfold plot. rewrite plot_loop_cons. unfold plot_item.
  simpl isinstance_Series. simpl orb. cbv iota.
  by rewrite trimmed_Bare.
Qed.

Lemma trimmed_Coll (l : list Series.t) (i : Z) (s : Series.t)
    (start stop : option index_arg) :
  py_index l i = Ok s →
  trimmed (Coll l) i start stop = Series.trim s start stop.
Proof. intros Hs. unfold trimmed, getitem. by rewrite Hs. Qed.

(** A collection of one series is drawn as one line. *)
Lemma plot_single_collection (s s' : Series.t) (pop_name : string)
    (title : string) (log_scale : bool) (size : option Z)
    (stop start : option index_arg) (ymax : option Q) (cindex : option Z)
    (show_confidence_interval : bool) (color : string * string) :
  Series.trim s start stop = Ok s' →
  py_index PLOT_COLORS (color_of cindex 0) = Ok color →
  ∃ fig, plot [(Coll [s], pop_name)] title log_scale size stop start ymax cindex
              show_confidence_interval = Ok fig
         ∧ data fig = [Line (Series.x s') (Series.y s') color.1 pop_name].
Proof.
  intros Htrim Hcolor. unfold plot. rewrite plot_loop_cons. unfold plot_item.
  simpl isinstance_Series. simpl orb. cbv iota.
  rewrite (trimmed_Coll _ _ s) by done.
  rewrite Htrim. cbn [plot_loop app call_all call mbind result_bind].
  unfold plot_line. rewrite Hcolor. cbn [mbind result_bind].
  eexists. split; [done|]. by rewrite update_layout_data.
Qed.

(** ** C7: an item with an invalid number of elements *)

Lemma plot_item_invalid (l : list Series.t) (pop_name : string) (color_index : Z)
    (stop start : option index_arg) (show : bool) (area_fns line_fns : list deferred) :
  length l ≠ 1%nat → length l ≠ 2%nat → length l ≠ 3%nat →
  plot_item (Coll l) pop_name color_index stop start show area_fns line_fns
  = Err (ValueError "Invalid number of elements to plot").
Proof.
  intros H1 H2 H3. unfold plot_item. simpl.
  rewrite (proj2 (Z.eqb_neq _ 1)), (proj2 (Z.eqb_neq _ 3)), (proj2 (Z.eqb_neq _ 2))
    by lia.
  done.
Qed.

(** C7. When an item holds a sequence of series whose length is not 1, 2 or
    3 (a 4-tuple, an empty sequence), [plot] returns no figure: it raises
    [ValueError('Invalid number of elements to plot')] (the spec's
    ConfigurationError) when the loop reaches the item, that is, unless an
    earlier item has raised already, and then that exception is the
    outcome. *)
Theorem plot_invalid_number_of_elements
    (before after : list (plot_data * string)) (l : list Series.t)
    (pop_name : string) (title : string) (log_scale : bool) (size : option Z)
    (stop start : option index_arg) (ymax : option Q) (cindex : option Z)
    (show_confidence_interval : bool) :
  length l ≠ 1%nat → length l ≠ 2%nat → length l ≠ 3%nat →
  plot (before ++ (Coll l, pop_name) :: after) title log_scale size stop start
       ymax cindex show_confidence_interval
  = match plot_loop before 0 stop start cindex show_confidence_interval [] [] with
    | Ok _ => Err (ValueError "Invalid number of elements to plot")
    | Err e => Err e
    end.
Proof.
  intros H1 H2 H3. unfold plot. rewrite plot_loop_app.
  destruct (plot_loop before _ _ _ _ _ _ _) as [[afs lfs]|e]; [|done].
  by rewrite Ok_bind, plot_loop_cons, plot_item_invalid.
Qed.
End plot_loop.

(** ** C2: fills are drawn before lines *)

Lemma add_traces_app (fig : Figure) (trs1 trs2 : list trace) :
  add_traces (add_traces fig trs1) trs2 = add_traces fig (trs1 ++ trs2).
Proof. unfold add_traces. simpl. by rewrite app_assoc. Qed.

Lemma add_traces_nil (fig : Figure) : add_traces fig [] = fig.
Proof. destruct fig. unfold add_traces. simpl. by rewrite app_nil_r. Qed.

(** What a deferred call draws does not depend on the figure. *)
Lemma call_traces (fn : deferred) (fig : Figure) :
  call fn fig = traces_of [fn] ≫= λ trs, Ok (add_traces fig trs).
Proof.
  unfold traces_of. cbn [call_all].
  destruct fn as [s name c|low high legend c]; unfold call.
  - unfold plot_line. destruct (py_index PLOT_COLORS c); [|done]. done.
  - unfold plot_confidence_range.
    destruct (assert _); [|done]. rewrite !Ok_bind.
    destruct (concat_seq _ (Series.x high) _); [|done]. rewrite !Ok_bind.
    destruct (concat_seq _ (Series.y high) _); [|done]. rewrite !Ok_bind.
    destruct (py_index PLOT_COLORS c); [|done]. done.
Qed.

Lemma call_all_traces (fns : list deferred) (fig : Figure) :
  call_all fns fig = traces_of fns ≫= λ trs, Ok (add_traces fig trs).
Proof.
  revert fig. induction fns as [|fn fns IH]; intros fig.
  - unfold traces_of. simpl. by rewrite add_traces_nil.
  - unfold traces_of. cbn [call_all]. rewrite (call_traces fn fig), (call_traces fn FigureWidget).
    destruct (traces_of [fn]) as [trs|e]; [|done]. rewrite !Ok_bind.
    rewrite (IH (add_traces fig trs)), (IH (add_traces FigureWidget trs)).
    destruct (traces_of fns) as [more|e]; [|done]. simpl.
    by rewrite add_traces_app.
Qed.

Lemma call_all_app (fns1 fns2 : list deferred) (fig : Figure) :
  call_all (fns1 ++ fns2) fig = call_all fns1 fig ≫= call_all fns2.
Proof.
  revert fig. induction fns1 as [|fn fns1 IH]; intros fig; [done|].
  simpl. destruct (call fn fig) as [fig'|e]; [|done]. simpl. apply IH.
Qed.

Lemma traces_of_app (fns1 fns2 : list deferred) :
  traces_of (fns1 ++ fns2)
  = traces_of fns1 ≫= λ trs, traces_of fns2 ≫= λ more, Ok (trs ++ more).
Proof.
  unfold traces_of at 1. rewrite call_all_app, call_all_traces.
  destruct (traces_of fns1) as [trs|e]; [|done]. rewrite !Ok_bind.
  rewrite call_all_traces.
  by destruct (traces_of fns2) as [more|e].
Qed.

Lemma traces_of_nil : traces_of [] = Ok [].
Proof. done. Qed.

Lemma traces_of_line (s : Series.t) (name : string) (c : Z) (trs : list trace) :
  traces_of [partial_plot_line s name c] = Ok trs →
  Forall (λ tr, is_line tr = true) trs.
Proof.
  unfold traces_of. simpl. unfold plot_line.
  destruct (py_index PLOT_COLORS c); [|done]. simpl. intros [= <-].
  by repeat constructor.
Qed.

Lemma traces_of_area (low high : Series.t) (legend : option string) (c : Z)
    (trs : list trace) :
  traces_of [partial_plot_confidence_range low high legend c] = Ok trs →
  Forall (λ tr, is_fill tr = true) trs.
Proof.
  unfold traces_of. cbn [call_all call]. unfold plot_confidence_range.
  destruct (assert _); [|done]. rewrite !Ok_bind.
  destruct (concat_seq _ (Series.x high) _); [|done]. rewrite !Ok_bind.
  destruct (concat_seq _ (Series.y high) _); [|done]. rewrite !Ok_bind.
  destruct (py_index PLOT_COLORS c); [|done]. simpl. intros [= <-].
  by repeat constructor.
Qed.

Section fills_before_lines.
Context `{DateParsing}.

Lemma plot_item_acc (data : plot_data) (pop_name : string) (color_index : Z)
    (stop start : option index_arg) (show : bool) (area_fns line_fns : list deferred) :
  plot_item data pop_name color_index stop start show area_fns line_fns
  = plot_item data pop_name color_index stop start show [] []
    ≫= λ '(a, l), Ok (area_fns ++ a, line_fns ++ l).
Proof.
  unfold plot_item.
  repeat first
    [ done
    | rewrite app_nil_r
    | rewrite Ok_bind
    | match goal with
      | |- context [trimmed ?d ?i ?a ?b] => destruct (trimmed d i a b)
      | |- context [if ?c then _ else _] => destruct c
      end ].
Qed.

Lemma plot_loop_acc (items : list (plot_data * string)) (i : Z)
    (stop start : option index_arg) (cindex : option Z) (show : bool)
    (area_fns line_fns : list deferred) :
  plot_loop items i stop start cindex show area_fns line_fns
  = plot_loop items i stop start cindex show [] []
    ≫= λ '(a, l), Ok (area_fns ++ a, line_fns ++ l).
Proof.
  revert i area_fns line_fns.
  induction items as [|[data name] items IH]; intros i area_fns line_fns.
  - simpl. by rewrite !app_nil_r.
  - rewrite !plot_loop_cons, plot_item_acc.
    destruct (plot_item data name _ _ _ _ [] []) as [[a l]|e]; [|done].
    rewrite !Ok_bind, (IH _ (area_fns ++ a)), (IH _ a).
    destruct (plot_loop items _ _ _ _ _ [] []) as [[a' l']|e]; [|done].
    rewrite !Ok_bind. by rewrite !app_assoc.
Qed.

Lemma traces_of_app_Ok (fns1 fns2 : list deferred) (trs : list trace) :
  traces_of (fns1 ++ fns2) = Ok trs
  ↔ ∃ trs1 trs2, traces_of fns1 = Ok trs1 ∧ traces_of fns2 = Ok trs2
                 ∧ trs = trs1 ++ trs2.
Proof.
  rewrite traces_of_app. split.
  - destruct (traces_of fns1) as [trs1|]; [|done].
    destruct (traces_of fns2) as [trs2|]; [|done].
    intros [= <-]. eauto.
  - by intros (trs1 & trs2 & -> & -> & ->).
Qed.

Lemma item_traces_Ok (data : plot_data) (pop_name : string) (color_index : Z)
    (stop start : option index_arg) (show : bool) (fills lines : list trace) :
  item_traces data pop_name color_index stop start show = Ok (fills, lines)
  ↔ ∃ a l, plot_item data pop_name color_index stop start show [] [] = Ok (a, l)
           ∧ traces_of a = Ok fills ∧ traces_of l = Ok lines.
Proof.
  unfold item_traces. split.
  - destruct (plot_item _ _ _ _ _ _ _ _) as [[a l]|]; [|done].
    cbn [mbind result_bind]. intros Heq. exists a, l.
    destruct (traces_of a) as [fs|]; [|done].
    destruct (traces_of l) as [ls|]; [|done].
    by injection Heq as <- <-.
  - intros (a & l & -> & Hf & Hl). cbn [mbind result_bind].
    by rewrite Hf, Hl.
Qed.

Lemma plot_loop_traces (items : list (plot_data * string)) (i : Z)
    (stop start : option index_arg) (cindex : option Z) (show : bool)
    (fills lines : list trace) :
  (∃ a l, plot_loop items i stop start cindex show [] [] = Ok (a, l)
          ∧ traces_of a = Ok fills ∧ traces_of l = Ok lines)
  ↔ items_traces items i stop start cindex show = Ok (fills, lines).
Proof.
  revert i fills lines.
  induction items as [|[data name] items IH]; intros i fills lines.
  - simpl. split.
    + intros (a & l & [= <- <-] & [= <-] & [= <-]). done.
    + intros [= <- <-]. by exists [], [].
  - rewrite plot_loop_cons. simpl items_traces. split.
    + intros (a & l & Hloop & Ha & Hl).
      destruct (plot_item data name _ _ _ _ [] []) as [[a0 l0]|] eqn:Hitem; [|done].
      rewrite Ok_bind, plot_loop_acc in Hloop.
      destruct (plot_loop items _ _ _ _ _ [] []) as [[a' l']|] eqn:Hrest; [|done].
      rewrite Ok_bind in Hloop. injection Hloop as <- <-.
      apply traces_of_app_Ok in Ha as (f0 & f' & Hf0 & Hf' & ->).
      apply traces_of_app_Ok in Hl as (t0 & t' & Ht0 & Ht' & ->).
      rewrite (proj2 (item_traces_Ok data name _ stop start show f0 t0))
        by (exists a0, l0; by rewrite Hitem).
      rewrite Ok_bind, (proj1 (IH (i + 1) f' t')); [done|].
      exists a', l'. by rewrite Hrest.
    + destruct (item_traces _ _ _ _ _ _) as [[f0 t0]|] eqn:Hitem; [|done].
      rewrite Ok_bind.
      destruct (items_traces _ _ _ _ _ _) as [[f' t']|] eqn:Hrest; [|done].
      rewrite Ok_bind. intros [= <- <-].
      apply item_traces_Ok in Hitem as (a0 & l0 & -> & Hf0 & Ht0).
      apply IH in Hrest as (a' & l' & Hloop & Hf' & Ht').
      rewrite Ok_bind, plot_loop_acc, Hloop, Ok_bind.
      exists (a0 ++ a'), (l0 ++ l'). split; [done|].
      split; apply traces_of_app_Ok; eauto.
Qed.

Lemma item_traces_kinds (data : plot_data) (pop_name : string) (color_index : Z)
    (stop start : option index_arg) (show : bool) (fills lines : list trace) :
  item_traces data pop_name color_index stop start show = Ok (fills, lines) →
  Forall (λ tr, is_fill tr = true) fills ∧ Forall (λ tr, is_line tr = true) lines.
Proof.
  intros (a & l & Hitem & Hf & Hl)%item_traces_Ok.
  unfold plot_item in Hitem.
  repeat match type of Hitem with
         | context [trimmed ?d ?i ?a ?b] => destruct (trimmed d i a b)
         | context [if ?c then _ else _] => destruct c
         | _ => rewrite Ok_bind in Hitem
         end;
    try done; injection Hitem as <- <-; cbn [app] in Hf, Hl.
  all: split.
  all: first [ by eapply traces_of_area
             | by eapply traces_of_line
             | rewrite traces_of_nil in Hf; injection Hf as <-; constructor
             | rewrite traces_of_nil in Hl; injection Hl as <-; constructor ].
Qed.

Lemma items_traces_kinds (items : list (plot_data * string)) (i : Z)
    (stop start : option index_arg) (cindex : option Z) (show : bool)
    (fills lines : list trace) :
  items_traces items i stop start cindex show = Ok (fills, lines) →
  Forall (λ tr, is_fill tr = true) fills ∧ Forall (λ tr, is_line tr = true) lines.
Proof.
  revert i fills lines.
  induction items as [|[data name] items IH]; intros i fills lines.
  - intros [= <- <-]. by split.
  - simpl.
    destruct (item_traces _ _ _ _ _ _) as [[f0 t0]|] eqn:Hitem; [|done].
    rewrite Ok_bind.
    destruct (items_traces _ _ _ _ _ _) as [[f' t']|] eqn:Hrest; [|done].
    rewrite Ok_bind. intros [= <- <-].
    apply item_traces_kinds in Hitem as [??]. apply IH in Hrest as [??].
    split; by apply Forall_app.
Qed.

(** [plot] returns a figure exactly when every item can be drawn, and the
    figure then holds the fills of the items followed by their lines. *)
Lemma plot_Ok (items : list (plot_data * string)) (title : string)
    (log_scale : bool) (size : option Z) (stop start : option index_arg)
    (ymax : option Q) (cindex : option Z) (show : bool) (fig : Figure) :
  plot items title log_scale size stop start ymax cindex show = Ok fig
  ↔ ∃ fills lines,
      items_traces items 0 stop start cindex show = Ok (fills, lines)
      ∧ fig = update_layout (add_traces FigureWidget (fills ++ lines))
                            title log_scale size ymax (length items).
Proof.
  unfold plot. cbv zeta. split.
  - destruct (plot_loop _ _ _ _ _ _ _ _) as [[a l]|] eqn:Hloop; [|done].
    rewrite Ok_bind, call_all_traces.
    destruct (traces_of a) as [fills|] eqn:Hf; [|done]. rewrite !Ok_bind.
    rewrite call_all_traces.
    destruct (traces_of l) as [lines|] eqn:Hl; [|done]. rewrite !Ok_bind.
    intros [= <-]. exists fills, lines. split.
    + apply plot_loop_traces. exists a, l. by rewrite Hloop.
    + by rewrite add_traces_app.
  - intros (fills & lines & (a & l & -> & Hf & Hl)%plot_loop_traces & ->).
    rewrite Ok_bind, call_all_traces, Hf, !Ok_bind, call_all_traces, Hl, !Ok_bind.
    by rewrite add_traces_app.
Qed.

(** C2. In a figure that [plot] returns, the traces are the fill traces of
    the items followed by their line traces, whatever the order of the
    items: every fill is before every line, and the fills among themselves,
    and the lines among themselves, are in the order of the items. *)
Theorem plot_fills_before_lines (items : list (plot_data * string))
    (title : string) (log_scale : bool) (size : option Z)
    (stop start : option index_arg) (ymax : option Q) (cindex : option Z)
    (show_confidence_interval : bool) (fig : Figure) :
  plot items title log_scale size stop start ymax cindex show_confidence_interval
  = Ok fig →
  ∃ fills lines,
    items_traces items 0 stop start cindex show_confidence_interval
    = Ok (fills, lines)
    ∧ data fig = fills ++ lines
    ∧ Forall (λ tr, is_fill tr = true) fills
    ∧ Forall (λ tr, is_line tr = true) lines.
Proof.
  intros (fills & lines & Htraces & ->)%plot_Ok.
  exists fills, lines. split; [done|].
  split; [by rewrite update_layout_data|].
  by eapply items_traces_kinds.
Qed.
End fills_before_lines.

(** ** C9: copies and aliases *)

Lemma alloc_spec (h h' : heap) (a : array) (l : loc) :
  alloc h a = (h', l) → (l ∉ dom h) ∧ h' = <[l := a]> h.
Proof. intros [= <- <-]. split; [apply is_fresh|done]. Qed.

Lemma alloc_subseteq (h h' : heap) (a : array) (l : loc) :
  alloc h a = (h', l) → h ⊆ h' ∧ l ∈ dom h'.
Proof.
  intros [Hl ->]%alloc_spec. split.
  - apply insert_subseteq. by apply not_elem_of_dom.
  - rewrite dom_insert. set_solver.
Qed.

(** Writing a buffer that an array does not use. *)
Lemma read_floats_insert_ne (h : heap) (v : ndarray) (l : loc) (a : array) :
  l ≠ base v → read_floats (<[l := a]> h) v = read_floats h v.
Proof. intros Hne. unfold read_floats. by rewrite lookup_insert_ne. Qed.

Lemma read_dates_insert_ne (h : heap) (v : ndarray) (l : loc) (a : array) :
  l ≠ base v → read_dates (<[l := a]> h) v = read_dates h v.
Proof. intros Hne. unfold read_dates. by rewrite lookup_insert_ne. Qed.

Lemma read_datetimes_insert_ne (h : heap) (v : ndarray) (l : loc) (a : array) :
  l ≠ base v → read_datetimes (<[l := a]> h) v = read_datetimes h v.
Proof. intros Hne. unfold read_datetimes. by rewrite lookup_insert_ne. Qed.

Lemma read_insert_ne (h : heap) (o : SeriesObj.t) (l : loc) (a : array) :
  l ∉ SeriesObj.buffers o →
  SeriesObj.read (<[l := a]> h) o = SeriesObj.read h o.
Proof.
  unfold SeriesObj.buffers, SeriesObj.read. intros Hl.
  rewrite read_floats_insert_ne, read_dates_insert_ne, read_datetimes_insert_ne
    by set_solver.
  done.
Qed.

Lemma read_floats_subseteq (h h' : heap) (v : ndarray) :
  h ⊆ h' → base v ∈ dom h → read_floats h' v = read_floats h v.
Proof.
  intros Hsub [a Ha]%elem_of_dom. unfold read_floats.
  by rewrite Ha, (lookup_weaken _ _ _ _ Ha Hsub).
Qed.

Lemma read_dates_subseteq (h h' : heap) (v : ndarray) :
  h ⊆ h' → base v ∈ dom h → read_dates h' v = read_dates h v.
Proof.
  intros Hsub [a Ha]%elem_of_dom. unfold read_dates.
  by rewrite Ha, (lookup_weaken _ _ _ _ Ha Hsub).
Qed.

Lemma read_datetimes_subseteq (h h' : heap) (v : ndarray) :
  h ⊆ h' → base v ∈ dom h → read_datetimes h' v = read_datetimes h v.
Proof.
  intros Hsub [a Ha]%elem_of_dom. unfold read_datetimes.
  by rewrite Ha, (lookup_weaken _ _ _ _ Ha Hsub).
Qed.

Lemma read_subseteq (h h' : heap) (o : SeriesObj.t) :
  h ⊆ h' → SeriesObj.buffers o ⊆ dom h →
  SeriesObj.read h' o = SeriesObj.read h o.
Proof.
  unfold SeriesObj.buffers, SeriesObj.read. intros Hsub Hdom.
  rewrite (read_floats_subseteq h h'), (read_dates_subseteq h h'),
    (read_datetimes_subseteq h h') by set_solver.
  done.
Qed.

Lemma np_array_floats_spec (h h' : heap) (l : list Q) (v : ndarray) :
  np_array_floats h l = (h', v) →
  (base v ∉ dom h) ∧ h ⊆ h' ∧ base v ∈ dom h' ∧ read_floats h' v = l.
Proof.
  unfold np_array_floats. destruct (alloc h _) as [h1 b] eqn:Ha.
  intros [= <- <-]. pose proof (alloc_subseteq _ _ _ _ Ha) as [??].
  apply alloc_spec in Ha as [? ->]. repeat split; [done..|].
  unfold read_floats, window. simpl. rewrite lookup_insert_eq.
  by rewrite drop_0, firstn_all.
Qed.

Lemma np_array_dates_spec (h h' : heap) (l : list date) (v : ndarray) :
  np_array_dates h l = (h', v) →
  (base v ∉ dom h) ∧ h ⊆ h' ∧ base v ∈ dom h' ∧ read_dates h' v = l.
Proof.
  unfold np_array_dates. destruct (alloc h _) as [h1 b] eqn:Ha.
  intros [= <- <-]. pose proof (alloc_subseteq _ _ _ _ Ha) as [??].
  apply alloc_spec in Ha as [? ->]. repeat split; [done..|].
  unfold read_dates, window. simpl. rewrite lookup_insert_eq.
  by rewrite drop_0, firstn_all.
Qed.

Lemma np_array_datetimes_spec (h h' : heap) (l : list datetime) (v : ndarray) :
  np_array_datetimes h l = (h', v) →
  (base v ∉ dom h) ∧ h ⊆ h' ∧ base v ∈ dom h' ∧ read_datetimes h' v = l.
Proof.
  unfold np_array_datetimes. destruct (alloc h _) as [h1 b] eqn:Ha.
  intros [= <- <-]. pose proof (alloc_subseteq _ _ _ _ Ha) as [??].
  apply alloc_spec in Ha as [? ->]. repeat split; [done..|].
  unfold read_datetimes, window. simpl. rewrite lookup_insert_eq.
  by rewrite drop_0, firstn_all.
Qed.

Lemma deepcopy_spec (h h' : heap) (v v' : ndarray) :
  deepcopy h v = (h', v') →
  (base v' ∉ dom h) ∧ h ⊆ h' ∧ base v' ∈ dom h' ∧ read_floats h' v' = read_floats h v.
Proof. apply np_array_floats_spec. Qed.

Section copies.
Context `{DateParsing}.

(** Every series that the constructor returns has consecutive dates, and
    keeps the values it was given unless it filled them. *)
Lemma init_Ok_inv (ys : list Q) (x : option (list xitem))
    (sd : option start_arg) (s : Series.t) :
  Series.__init__ ys x sd = Ok s →
  ∃ start num,
    Series._x s = seqZ start num
    ∧ Series.x s = to_datetime <$> Series._x s
    ∧ ((Z.of_nat (length ys) <? num) = false → Series.y s = ys).
Proof.
  unfold Series.__init__. intros Hinit.
  assert (∃ r : result (option (list xitem) * Z * Z),
            r ≫= (λ '(x, start_date, num_elements),
              let _x := (λ i, start_date + i) <$> seqZ 0 num_elements in
              y ← (if Z.of_nat (length ys) <? num_elements then
                     xs ← from_option Ok (Err TypeError) x;
                     x_to_y ← map_x_to_y xs ys;
                     Ok (fill_loop x_to_y _x 0%Q)
                   else Ok ys);
              Ok {| Series._x := _x; Series.x := to_datetime <$> _x;
                    Series.y := y |}) = Ok s) as [r Hr].
  { destruct x, sd; try done; eauto. }
  clear Hinit. destruct r as [[[x' start] num]|]; [|done].
  rewrite Ok_bind in Hr. cbv zeta in Hr.
  apply bind_Ok in Hr as (y' & Hy & [= <-]). simpl.
  exists start, num. rewrite date_range_seqZ. split; [done|]. split; [done|].
  intros Hlt. rewrite Hlt in Hy. by injection Hy.
Qed.

Lemma init_y_kept (ys : list Q) (x : option (list xitem))
    (sd : option start_arg) (s : Series.t) :
  Series.__init__ ys x sd = Ok s →
  ¬ (length ys < length (Series._x s))%nat →
  Series.y s = ys.
Proof.
  intros (start & num & Hx & _ & Hy)%init_Ok_inv Hlen. apply Hy.
  rewrite Hx, length_seqZ in Hlen. apply Z.ltb_ge. lia.
Qed.

(** The constructor on the store: the object holds the series that
    [Series.__init__] computes, in three buffers that did not exist
    before; the buffers that existed are as they were. *)
Lemma init_obj_spec (h h' : heap) (y : y_arg) (x : option x_arg)
    (sd : option start_arg) (o : SeriesObj.t) :
  (∀ v, y = YArray v → base v ∈ dom h) →
  SeriesObj.__init__ h y x sd = Ok (h', o) →
  Series.__init__ (y_values h y) (x_items h <$> x) sd = Ok (SeriesObj.read h' o)
  ∧ h ⊆ h'
  ∧ SeriesObj.buffers o ⊆ dom h'
  ∧ SeriesObj.buffers o ## dom h.
Proof.
  intros Hy. unfold SeriesObj.__init__. cbv zeta.
  destruct (Series.__init__ _ _ _) as [s|] eqn:Hs; [|done]. rewrite Ok_bind.
  destruct (np_array_dates h _) as [h1 vx_] eqn:H1.
  destruct (np_array_datetimes h1 _) as [h2 vx] eqn:H2.
  apply np_array_dates_spec in H1 as (Hf1 & Hs1 & Hd1 & Hr1).
  apply np_array_datetimes_spec in H2 as (Hf2 & Hs2 & Hd2 & Hr2).
  match goal with
  | |- context [let '(_, _) := ?e in _] => destruct e as [h3 vy] eqn:H3
  end.
  assert ((base vy ∉ dom h2) ∧ h2 ⊆ h3 ∧ base vy ∈ dom h3
          ∧ read_floats h3 vy = Series.y s) as (Hf3 & Hs3 & Hd3 & Hr3).
  { destruct y as [l|v]; [by apply np_array_floats_spec in H3|].
    case_bool_decide as Hfill; [by apply np_array_floats_spec in H3|].
    apply deepcopy_spec in H3 as (? & ? & ? & Hr3).
    repeat split; [done..|]. rewrite Hr3.
    rewrite (read_floats_subseteq h h2); [|by etrans|by apply Hy].
    symmetry. by eapply init_y_kept. }
  intros [= <- <-].
  assert (dom h ⊆ dom h1) as Hdom1 by by apply subseteq_dom.
  assert (dom h1 ⊆ dom h2) as Hdom2 by by apply subseteq_dom.
  assert (dom h2 ⊆ dom h3) as Hdom3 by by apply subseteq_dom.
  split; [|split; [by etrans; [|etrans]|]].
  - f_equal. destruct s as [sx_ sx sy]. unfold SeriesObj.read. simpl in *.
    rewrite Hr3. f_equal.
    + rewrite (read_dates_subseteq h1 h3); [done|by etrans|done].
    + rewrite (read_datetimes_subseteq h2 h3); done.
  - unfold SeriesObj.buffers. simpl. split.
    + intros l. rewrite !elem_of_union, !elem_of_singleton.
      intros [[->| ->]| ->]; auto.
    + apply elem_of_disjoint. intros l. rewrite !elem_of_union, !elem_of_singleton.
      intros [[->| ->]| ->] Hl; auto.
Qed.

Lemma py_slice_nil {A} (start stop : Z) : py_slice (@nil A) start stop = [].
Proof. unfold py_slice. by rewrite drop_nil, take_nil. Qed.

(** A slice of an array shows the slice of its elements. *)
Lemma window_slice {A} (l : list A) (v : ndarray) (start stop : Z) :
  length (window l v) = size v →
  py_slice (window l v) start stop = window l (ndarray_slice v start stop).
Proof.
  intros Hlen. symmetry. unfold py_slice. rewrite Hlen.
  unfold ndarray_slice, window at 1.
  cbv zeta. simpl.
  set (a := slice_bound (Z.of_nat (size v)) start).
  set (b := slice_bound (Z.of_nat (size v)) stop).
  assert (0 ≤ a ≤ Z.of_nat (size v) ∧ 0 ≤ b ≤ Z.of_nat (size v)) as [Ha Hb].
  { unfold a, b, slice_bound. split; repeat case_match; lia. }
  unfold window. rewrite skipn_firstn_comm, take_take, drop_drop.
  f_equal. lia.
Qed.

(** [trim] on the store computes what [Series.trim] computes. *)
Lemma trim_obj_spec (h h' : heap) (o o' : SeriesObj.t)
    (start stop : option index_arg) :
  SeriesObj.buffers o ⊆ dom h →
  length (read_floats h (SeriesObj.y o)) = size (SeriesObj.y o) →
  length (read_dates h (SeriesObj._x o)) = size (SeriesObj._x o) →
  SeriesObj.trim h o start stop = Ok (h', o') →
  Series.trim (SeriesObj.read h o) start stop = Ok (SeriesObj.read h' o').
Proof.
  intros Hdom Hy Hx. unfold SeriesObj.trim, Series.trim.
  destruct (Series.get_index _ _) as [start_index|]; [|done]. rewrite !Ok_bind.
  destruct (Series.get_stop_index _ _) as [stop_index|]; [|done]. rewrite !Ok_bind.
  intros (Hinit & _)%init_obj_spec.
  - rewrite <- Hinit. f_equal.
    + unfold y_values, SeriesObj.read, read_floats in *. simpl.
      destruct (h !! base (SeriesObj.y o)) as [[]|];
        first [by apply window_slice | by rewrite py_slice_nil].
    + simpl. do 2 f_equal. unfold SeriesObj.read, read_dates in *. simpl.
      destruct (h !! base (SeriesObj._x o)) as [[]|];
        first [by apply window_slice | by rewrite py_slice_nil].
  - intros v [= <-]. simpl. unfold SeriesObj.buffers in Hdom. set_solver.
Qed.

(** C9. A series does not share its buffers.  Construction copies the
    caller's array of values: the array of the new series is another
    buffer, the buffers that existed are left as they were, and writing
    the caller's buffer afterwards does not change the series.  [trim]
    returns a series none of whose buffers is a buffer of the original; the
    original is unchanged, and writing the buffers of either one does not
    change the other. *)
Theorem series_buffers_not_shared :
  (∀ (h h' : heap) (v : ndarray) (x : option x_arg) (sd : option start_arg)
     (o : SeriesObj.t),
     base v ∈ dom h →
     SeriesObj.__init__ h (YArray v) x sd = Ok (h', o) →
     (base v ∉ SeriesObj.buffers o)
     ∧ h ⊆ h'
     ∧ ∀ a, SeriesObj.read (<[base v := a]> h') o = SeriesObj.read h' o)
  ∧ (∀ (h h' : heap) (o o' : SeriesObj.t) (start stop : option index_arg),
       SeriesObj.buffers o ⊆ dom h →
       SeriesObj.trim h o start stop = Ok (h', o') →
       SeriesObj.buffers o' ## SeriesObj.buffers o
       ∧ SeriesObj.read h' o = SeriesObj.read h o
       ∧ (∀ l a, l ∈ SeriesObj.buffers o' →
            SeriesObj.read (<[l := a]> h') o = SeriesObj.read h o)
       ∧ (∀ l a, l ∈ SeriesObj.buffers o →
            SeriesObj.read (<[l := a]> h') o' = SeriesObj.read h' o')).
Proof.
  split.
  - intros h h' v x sd o Hv (_ & Hsub & _ & Hfresh)%init_obj_spec;
      [|by intros ? [= <-]].
    assert (base v ∉ SeriesObj.buffers o) as Hne.
    { intros Hin. by apply (proj1 (elem_of_disjoint _ _) Hfresh (base v)). }
    split; [done|]. split; [done|]. intros a. by apply read_insert_ne.
  - intros h h' o o' start stop Hdom Htrim.
    unfold SeriesObj.trim in Htrim.
    destruct (Series.get_index _ _) as [start_index|]; [|done].
    rewrite Ok_bind in Htrim.
    destruct (Series.get_stop_index _ _) as [stop_index|]; [|done].
    rewrite Ok_bind in Htrim.
    apply init_obj_spec in Htrim as (_ & Hsub & _ & Hfresh).
    + assert (SeriesObj.read h' o = SeriesObj.read h o) as Hread
        by by apply read_subseteq.
      assert (SeriesObj.buffers o' ## SeriesObj.buffers o) as Hdisj.
      { apply elem_of_disjoint. intros l Hl' Hl.
        apply (proj1 (elem_of_disjoint _ _) Hfresh l Hl'). by apply Hdom. }
      split; [done|]. split; [done|]. split.
      * intros l a Hl. rewrite read_insert_ne; [done|].
        intros Hl'. by apply (proj1 (elem_of_disjoint _ _) Hdisj l).
      * intros l a Hl. apply read_insert_ne.
        intros Hl'. by apply (proj1 (elem_of_disjoint _ _) Hdisj l).
    + intros v [= <-]. simpl. unfold SeriesObj.buffers in Hdom. set_solver.
Qed.
End copies.

(** ** Examples *)

Section examples.
Import Ex.

(** The forward fill of the sparse example. *)
Example init_sparse_example :
  Series.__init__ sparse_values (Some (XDate <$> sparse_dates)) None
  = Ok {| Series._x := seqZ d 6;
          Series.x := to_datetime <$> seqZ d 6;
          Series.y := [1%Q; 1%Q; 2%Q; 2%Q; 2%Q; (5 # 2)%Q] |}.
Proof. vm_compute. reflexivity. Qed.

Example parse_example : get_date_from_isoformat "2020-03-01" = Some d.
Proof. reflexivity. Qed.

(** The band of the specification: lower [1,2,3] and upper [4,5,6]. *)
Example band_example :
  plot_confidence_range FigureWidget lower upper None 0
  = Ok (add_trace FigureWidget
          (Fill (to_datetime <$> [d; d + 1; d + 2; d + 2; d + 1; d])
                [4%Q; 5%Q; 6%Q; 3%Q; 2%Q; 1%Q]
                "rgba(0,0,255,0.25)" "rgba(0,0,255,0.25)" false None)).
Proof. vm_compute. reflexivity. Qed.

(** The draw order of the specification: a line-only item, then a triple
    with a band. *)
Example draw_order_example :
  data <$> plot [line_only; triple_with_band] "t" false None None None None None true
  = Ok [ Fill (Series.x upper ++ reverse (Series.x lower))
              (Series.y upper ++ reverse (Series.y lower))
              "rgba(255,0,0,0.25)" "rgba(255,0,0,0.25)" false None;
         Line (Series.x central) (Series.y central) "rgba(0,0,255,1)" "A";
         Line (Series.x central) (Series.y central) "rgba(255,0,0,1)" "B" ].
Proof. vm_compute. reflexivity. Qed.

Example single_item_no_legend :
  showlegend <$> plot [line_only] "t" false None None None None None true
  = Ok (Some false).
Proof. vm_compute. reflexivity. Qed.

Example trim_all_example : Series.trim central None None = Ok central.
Proof. vm_compute. reflexivity. Qed.

Example trim_dates_example :
  Series.trim central (Some (IStr "2020-03-02")) (Some (IDate (d + 40)))
  = Ok (dense_series (d + 1) [(7 # 2)%Q; (9 # 2)%Q]).
Proof. vm_compute. reflexivity. Qed.
End examples.

(** ** The theorems at concrete inputs *)

Section witnesses.
Import Ex.

Lemma sparse_dates_ascending : ascending sparse_dates.
Proof.
  intros [|[|[|i]]] [|[|[|j]]] di dj Hij Hi Hj; simplify_eq/=; unfold d; lia.
Qed.

Lemma init_sparse_dates_witness :
  sparse_dates ≠ [] ∧ ascending sparse_dates
  ∧ length sparse_dates = length sparse_values
  ∧ ∃ s, Series.__init__ sparse_values (Some (XDate <$> sparse_dates)) None = Ok s
         ∧ Series._x s = seqZ (min_date sparse_dates)
                              (max_date sparse_dates - min_date sparse_dates + 1)
         ∧ Series.x s = to_datetime <$> Series._x s
         ∧ Series.__len__ s = max_date sparse_dates - min_date sparse_dates + 1
         ∧ length (Series._x s) = length (Series.y s)
         ∧ ∀ i d v, Series._x s !! i = Some d → Series.y s !! i = Some v →
             forward_filled sparse_dates sparse_values d v.
Proof.
  split; [done|]. split; [apply sparse_dates_ascending|]. split; [reflexivity|].
  apply (init_sparse_dates sparse_values sparse_dates);
    [done | apply sparse_dates_ascending | reflexivity].
Defined.

Lemma plot_fills_before_lines_witness :
  ∃ fig,
    plot [line_only; triple_with_band] "t" false None None None None None true
    = Ok fig
    ∧ ∃ fills lines,
        items_traces [line_only; triple_with_band] 0 None None None true
        = Ok (fills, lines)
        ∧ data fig = fills ++ lines
        ∧ Forall (λ tr, is_fill tr = true) fills
        ∧ Forall (λ tr, is_line tr = true) lines.
Proof.
  eexists. split; [vm_compute; reflexivity|].
  apply (plot_fills_before_lines [line_only; triple_with_band] "t" false
           None None None None None true).
  vm_compute. reflexivity.
Defined.

(** C3 as the claim has it fails on a raw integer: [get_index] returns
    [100] on a series of three days.  It also fails on a series without
    days, which has no first date. *)
Lemma get_index_int_not_clamped :
  (Series.get_index central (IInt 100) = Ok 100
   ∧ ¬ (0 ≤ 100 ≤ Series.__len__ central - 1))
  ∧ Series.__init__ [] None (Some (StartDate d)) = Ok empty
  ∧ Series.get_index empty (IDate d) = Err IndexError.
Proof.
  split; [|split; reflexivity].
  split; [reflexivity|]. vm_compute. intros [_ Hle]. by apply Hle.
Qed.

Lemma get_index_clamps_dates_witness :
  Series._x central = seqZ d (Series.__len__ central)
  ∧ 0 < Series.__len__ central
  ∧ index_date (IStr "2020-04-10") = Some (d + 40)
  ∧ ∃ i, Series.get_index central (IStr "2020-04-10") = Ok i
         ∧ 0 ≤ i ≤ Series.__len__ central - 1
         ∧ (d + 40 < d → i = 0)
         ∧ (d + Series.__len__ central - 1 < d + 40 → i = Series.__len__ central - 1)
         ∧ (d ≤ d + 40 ≤ d + Series.__len__ central - 1 → i = d + 40 - d).
Proof.
  split; [reflexivity|]. split; [reflexivity|]. split; [reflexivity|].
  apply (proj1 get_index_clamps_dates central d (IStr "2020-04-10") (d + 40));
    reflexivity.
Defined.

Lemma plot_confidence_range_polygon_witness :
  length (Series.x lower) = length (Series.y lower)
  ∧ length (Series.x upper) = length (Series.y upper)
  ∧ Series.__len__ lower = Series.__len__ upper
  ∧ py_index PLOT_COLORS 0 = Ok ("rgba(0,0,255,1)", "rgba(0,0,255,0.25)")
  ∧ plot_confidence_range FigureWidget lower upper None 0
    = Ok (add_trace FigureWidget
            (Fill (Series.x upper ++ reverse (Series.x lower))
                  (Series.y upper ++ reverse (Series.y lower))
                  "rgba(0,0,255,0.25)" "rgba(0,0,255,0.25)"
                  (bool_decide (None ≠ @None string)) None)).
Proof.
  split; [reflexivity|]. split; [reflexivity|]. split; [reflexivity|].
  split; [reflexivity|].
  apply (proj1 (plot_confidence_range_polygon FigureWidget lower upper None 0
                  eq_refl eq_refl) eq_refl
               ("rgba(0,0,255,1)", "rgba(0,0,255,0.25)") eq_refl).
Defined.

Lemma init_needs_x_or_start_date_witness :
  (Some [XDate d] ≠ None ∨ @None start_arg ≠ None)
  ∧ no_ValueError (Series.__init__ [1%Q] (Some [XDate d]) None).
Proof.
  split; [by left|].
  apply (proj2 init_needs_x_or_start_date [1%Q] (Some [XDate d]) None).
  by left.
Defined.

Lemma plot_invalid_number_of_elements_witness :
  length [central; lower; upper; central] ≠ 1%nat
  ∧ length [central; lower; upper; central] ≠ 2%nat
  ∧ length [central; lower; upper; central] ≠ 3%nat
  ∧ plot ([line_only] ++ four_series :: [triple_with_band]) "t" false None
         None None None None true
    = Err (ValueError "Invalid number of elements to plot").
Proof.
  split; [done|]. split; [done|]. split; [done|].
  apply (plot_invalid_number_of_elements [line_only] [triple_with_band]
           [central; lower; upper; central] "X" "t" false None None None None
           None true); done.
Defined.

Lemma init_unsorted_dates_AssertionError_witness :
  start_truthy None = false
  ∧ out_of_order [d + 2; d]
  ∧ Series.__init__ [1%Q; 2%Q] (Some (XDate <$> [d + 2; d])) None
    = Err AssertionError.
Proof.
  assert (out_of_order [d + 2; d]) as Hoo.
  { exists 0%nat, 1%nat, (d + 2), d.
    split; [lia|]. split; [reflexivity|]. split; [reflexivity|]. lia. }
  split; [reflexivity|]. split; [exact Hoo|].
  apply (init_unsorted_dates_AssertionError [1%Q; 2%Q] [d + 2; d] None);
    [reflexivity | exact Hoo].
Defined.

Lemma init_start_date_ignores_x_witness :
  "2020-03-01" ≠ "" ∧ get_date_from_isoformat "2020-03-01" = Some d
  ∧ days_in_calendar d (Z.of_nat (length [1%Q; 2%Q]))
  ∧ Series.__init__ [1%Q; 2%Q] (Some [XStr "unsorted"; XDate 3; XDate 1])
                    (Some (StartStr "2020-03-01"))
    = Ok (dense_series d [1%Q; 2%Q]).
Proof.
  assert (days_in_calendar d (Z.of_nat (length [1%Q; 2%Q]))) as Hdays
    by (unfold days_in_calendar, in_calendar, date_min, date_max, d;
        simpl; lia).
  split; [done|]. split; [reflexivity|]. split; [exact Hdays|].
  apply (proj2 init_start_date_ignores_x [1%Q; 2%Q]
               (Some [XStr "unsorted"; XDate 3; XDate 1]) "2020-03-01" d);
    [done | reflexivity | exact Hdays].
Defined.

Lemma series_buffers_not_shared_witness :
  base caller_array ∈ dom store
  ∧ ∃ h',
      SeriesObj.__init__ store (YArray caller_array) None (Some (StartDate d))
      = Ok (h', built)
      ∧ (base caller_array ∉ SeriesObj.buffers built)
      ∧ store ⊆ h'
      ∧ ∀ a, SeriesObj.read (<[base caller_array := a]> h') built
             = SeriesObj.read h' built.
Proof.
  assert (base caller_array ∈ dom store) as Hdom.
  { unfold store. rewrite dom_singleton. by apply elem_of_singleton. }
  split; [exact Hdom|].
  eexists. split; [vm_compute; reflexivity|].
  apply (proj1 series_buffers_not_shared store _ caller_array None
               (Some (StartDate d)) built Hdom).
  vm_compute. reflexivity.
Defined.
End witnesses.

(** * More properties of the module *)

(** ** Series.trim *)

Section trim_exact.
Context `{DateParsing}.

(** What [trim] returns on a series of consecutive days, from the indices
    its bounds resolve to. *)
Lemma trim_exact (s : Series.t) (first : date) (start stop : option index_arg)
    (a0 b0 : Z) :
  Series._x s = seqZ first (Series.__len__ s) →
  Series.get_index s (or_zero start) = Ok a0 →
  Series.get_stop_index s stop = Ok b0 →
  Series.trim s start stop
  = if decide (slice_bound (Series.__len__ s) a0 < slice_bound (Series.__len__ s) b0)
    then Ok (dense_series (first + slice_bound (Series.__len__ s) a0)
                          (py_slice (Series.y s) a0 b0))
    else Err IndexError.
Proof.
  intros Hx_ Ha0 Hb0. unfold Series.trim. rewrite Ha0, Hb0, !Ok_bind.
  rewrite init_dates_checked by done.
  rewrite Hx_, py_slice_seqZ by (unfold Series.__len__; lia).
  rewrite bool_decide_eq_true_2 by apply Sorted_seqZ.
  change (assert true) with (Ok tt). rewrite Ok_bind.
  pose proof (py_slice_length (Series.y s) a0 b0) as Hlen.
  fold (Series.__len__ s) in Hlen.
  set (n := Series.__len__ s) in *.
  set (a := slice_bound n a0) in *. set (b := slice_bound n b0) in *.
  destruct (decide (a < b)) as [Hlt|Hge].
  - rewrite (py_index_head _ (first + a)) by (by rewrite seqZ_cons by lia).
    rewrite (py_index_tail _ (first + a + (b - a - 1))).
    2:{ rewrite last_lookup, length_seqZ. apply lookup_seqZ. lia. }
    rewrite !Ok_bind. cbv zeta.
    rewrite (proj2 (Z.ltb_ge _ _)) by lia. rewrite Ok_bind.
    unfold dense_series. cbv zeta.
    replace (first + a + (b - a - 1) - (first + a) + 1)
      with (Z.of_nat (length (py_slice (Series.y s) a0 b0))) by lia.
    done.
  - by rewrite seqZ_nil, py_index_nil by lia.
Qed.

Lemma or_zero_int (i : Z) : or_zero (Some (IInt i)) = IInt i.
Proof. by destruct i. Qed.

Lemma slice_bound_id (n i : Z) : 0 ≤ i ≤ n → slice_bound n i = i.
Proof. intros Hi. unfold slice_bound. rewrite (proj2 (Z.ltb_ge i 0)) by lia. lia. Qed.

Lemma slice_bound_range (n i : Z) : 0 ≤ n → 0 ≤ slice_bound n i ≤ n.
Proof. intros Hn. unfold slice_bound. case_match; lia. Qed.

Lemma py_slice_take_drop {A} (l : list A) (a b : Z) :
  0 ≤ a → a ≤ b → b ≤ Z.of_nat (length l) →
  py_slice l a b = take (Z.to_nat (b - a)) (drop (Z.to_nat a) l).
Proof.
  intros Ha Hab Hb. unfold py_slice. cbv zeta.
  by rewrite !slice_bound_id by lia.
Qed.

(** [trim] without bounds. *)
Lemma trim_whole (s : Series.t) :
  well_formed s → 0 < Series.__len__ s → Series.trim s None None = Ok s.
Proof.
  intros (first & Hx_ & Hx) Hn.
  rewrite (trim_exact s first None None 0 (Series.__len__ s)); [|done|done|].
  - rewrite !slice_bound_id by lia. rewrite decide_True by done.
    rewrite py_slice_take_drop by (unfold Series.__len__; lia).
    rewrite Z.sub_0_r, drop_0. unfold Series.__len__ at 1.
    rewrite Nat2Z.id, firstn_all. rewrite Z.add_0_r.
    destruct s as [sx_ sx sy]. unfold dense_series. simpl in *.
    fold (Series.__len__ {| Series._x := sx_; Series.x := sx; Series.y := sy |}).
    unfold Series.__len__ in Hx_. simpl in Hx_. by rewrite <- Hx_, Hx.
  - unfold Series.get_stop_index. simpl. by rewrite Z.min_id.
Qed.

(** A trimmed series is well formed and has at least one day. *)
Lemma trim_Ok_nonempty (s s' : Series.t) (start stop : option index_arg) :
  well_formed s → Series.trim s start stop = Ok s' →
  well_formed s' ∧ 0 < Series.__len__ s'.
Proof.
  intros Hwf Htrim. pose proof Hwf as (first & Hx_ & _).
  destruct (trim_well_formed s s' start stop Hwf Htrim)
    as (Hwf' & a0 & b0 & Ha0 & Hb0 & _ & Hy).
  split; [done|].
  rewrite (trim_exact s first start stop a0 b0) in Htrim by done.
  case_decide as Hlt; [|done].
  pose proof (py_slice_length (Series.y s) a0 b0) as Hlen.
  unfold Series.__len__ in *. rewrite Hy. lia.
Qed.
End trim_exact.

Section trim_properties.
Context `{DateParsing}.

(** X1. Trimming a well-formed series gives a well-formed series with at
    least one day and no more days than the original; its dates and its
    values are one contiguous run of the original's, from the same
    position. *)
Theorem trim_keeps_invariant (s s' : Series.t) (start stop : option index_arg) :
  well_formed s →
  Series.trim s start stop = Ok s' →
  well_formed s'
  ∧ 0 < Series.__len__ s' ≤ Series.__len__ s
  ∧ ∃ k : nat,
      Series._x s' = take (Z.to_nat (Series.__len__ s')) (drop k (Series._x s))
      ∧ Series.y s' = take (Z.to_nat (Series.__len__ s')) (drop k (Series.y s)).
Proof.
  intros Hwf Htrim.
  destruct (trim_Ok_nonempty s s' start stop Hwf Htrim) as [Hwf' Hpos].
  destruct (trim_well_formed s s' start stop Hwf Htrim)
    as (_ & a0 & b0 & _ & _ & Hx_ & Hy).
  destruct (well_formed_lengths s Hwf) as [Hlx _].
  pose proof (py_slice_length (Series.y s) a0 b0) as Hlen.
  pose proof (slice_bound_range (Z.of_nat (length (Series.y s))) a0 ltac:(lia)).
  pose proof (slice_bound_range (Z.of_nat (length (Series.y s))) b0 ltac:(lia)).
  assert (Series.__len__ s' = Z.of_nat (length (py_slice (Series.y s) a0 b0)))
    as Hn' by (unfold Series.__len__; by rewrite Hy).
  split; [done|]. split; [unfold Series.__len__ in *; lia|].
  exists (Z.to_nat (slice_bound (Z.of_nat (length (Series.y s))) a0)).
  rewrite Hx_, Hy. unfold py_slice. cbv zeta. rewrite Hlx.
  rewrite Hn', Hlen. unfold py_slice. split; f_equal; lia.
Qed.

(** X2. Trimming a well-formed series that has at least one day without
    bounds returns a series with the same dates and the same values. *)
Theorem trim_without_bounds (s : Series.t) :
  well_formed s → 0 < Series.__len__ s → Series.trim s None None = Ok s.
Proof. apply trim_whole. Qed.

(** X3. On a series of consecutive days an empty range is an error, not an
    empty series: [trim] raises [IndexError] on a series without days, when
    the integer stop is before the integer start, and, whatever the start
    is, when the stop is [-1] (the stop index is then [-1 + 1 = 0]). *)
Theorem trim_empty_range_IndexError (s : Series.t) (first : date) :
  Series._x s = seqZ first (Series.__len__ s) →
  (Series.__len__ s = 0 → Series.trim s None None = Err IndexError)
  ∧ (∀ i j, 0 ≤ j < i →
       Series.trim s (Some (IInt i)) (Some (IInt j)) = Err IndexError)
  ∧ (∀ start a0, Series.get_index s (or_zero start) = Ok a0 →
       Series.trim s start (Some (IInt (-1))) = Err IndexError).
Proof.
  intros Hx_.
  assert (0 ≤ Series.__len__ s) as Hn by (unfold Series.__len__; lia).
  split; [|split].
  - intros H0. rewrite (trim_exact s first None None 0 0); [|done|done|].
    + by rewrite decide_False by lia.
    + unfold Series.get_stop_index. simpl. rewrite H0. done.
  - intros i j Hij.
    rewrite (trim_exact s first _ _ i (Z.min (j + 1) (Series.__len__ s))); [|done|..].
    + rewrite decide_False; [done|].
      unfold slice_bound.
      rewrite (proj2 (Z.ltb_ge i 0)), (proj2 (Z.ltb_ge (Z.min _ _) 0)) by lia. lia.
    + by rewrite or_zero_int.
    + done.
  - intros start a0 Ha0.
    rewrite (trim_exact s first _ _ a0 (Z.min 0 (Series.__len__ s))); [|done..].
    rewrite decide_False; [done|].
    pose proof (slice_bound_range (Series.__len__ s) a0 Hn).
    rewrite Z.min_l by lia. rewrite (slice_bound_id _ 0) by lia. lia.
Qed.

(** X4. Trimming a non-empty series of consecutive days between two dates
    [a <= b] never fails: each date is clamped into the series, and the
    result holds the days from the clamped [a] to the clamped [b], both
    included, with their values. *)
Theorem trim_dates_inclusive (s : Series.t) (first a b : date) :
  Series._x s = seqZ first (Series.__len__ s) →
  0 < Series.__len__ s →
  a ≤ b →
  let ia := clamped (Series.__len__ s) (a - first) in
  let ib := clamped (Series.__len__ s) (b - first) in
  Series.trim s (Some (IDate a)) (Some (IDate b))
  = Ok (dense_series (first + ia)
          (take (Z.to_nat (ib - ia + 1)) (drop (Z.to_nat ia) (Series.y s)))).
Proof.
  intros Hx_ Hn Hab ia ib.
  assert (head (Series._x s) = Some first) as Hhead
    by (by rewrite Hx_, seqZ_cons by lia).
  assert (Z.of_nat (length (Series._x s)) = Series.__len__ s) as Hlx
    by (rewrite Hx_, length_seqZ; lia).
  assert (0 ≤ ia ≤ ib ∧ ib ≤ Series.__len__ s - 1) as [Hia Hib]
    by (unfold ia, ib, clamped; lia).
  rewrite (trim_exact s first _ _ ia (ib + 1)); [|done|..].
  - rewrite !slice_bound_id by lia. rewrite decide_True by lia.
    rewrite py_slice_take_drop by (unfold Series.__len__ in *; lia).
    do 3 f_equal. lia.
  - simpl or_zero. rewrite (get_index_date s (IDate a) a first) by done.
    by rewrite Hlx.
  - unfold Series.get_stop_index.
    rewrite (get_index_date s (IDate b) b first) by done.
    rewrite Hlx. fold (clamped (Series.__len__ s) (b - first)).
    fold ib. simpl. f_equal. lia.
Qed.

(** X5. Trimming a series of consecutive days between two integer positions
    [0 <= i <= j] with [i] inside the series keeps the positions [i] to [j],
    both included, and stops at the last day when [j] is beyond it. *)
Theorem trim_ints_inclusive (s : Series.t) (first i j : Z) :
  Series._x s = seqZ first (Series.__len__ s) →
  0 ≤ i ≤ j →
  i < Series.__len__ s →
  Series.trim s (Some (IInt i)) (Some (IInt j))
  = Ok (dense_series (first + i)
          (take (Z.to_nat (Z.min j (Series.__len__ s - 1) - i + 1))
                (drop (Z.to_nat i) (Series.y s)))).
Proof.
  intros Hx_ Hij Hi.
  rewrite (trim_exact s first _ _ i (Z.min (j + 1) (Series.__len__ s)));
    [|done|by rewrite or_zero_int|done].
  rewrite !slice_bound_id by lia. rewrite decide_True by lia.
  unfold py_slice. cbv zeta. fold (Series.__len__ s).
  rewrite !slice_bound_id by lia.
  do 3 f_equal. lia.
Qed.

(** X6. Trimming is idempotent: a series that [trim] returned from a
    well-formed series is returned unchanged by a trim without bounds. *)
Theorem trim_idempotent (s s' : Series.t) (start stop : option index_arg) :
  well_formed s →
  Series.trim s start stop = Ok s' →
  Series.trim s' None None = Ok s'.
Proof.
  intros Hwf Htrim.
  destruct (trim_Ok_nonempty s s' start stop Hwf Htrim) as [Hwf' Hpos].
  by apply trim_whole.
Qed.
End trim_properties.

(** ** Series.__init__ *)

Section init_properties.
Context `{DateParsing}.

(** The two ways the values of a constructed series come about. *)
Lemma init_Ok_cases (ys : list Q) (x : option (list xitem))
    (sd : option start_arg) (s : Series.t) :
  Series.__init__ ys x sd = Ok s →
  ∃ start num,
    Series._x s = seqZ start num
    ∧ Series.x s = to_datetime <$> Series._x s
    ∧ ((num ≤ Z.of_nat (length ys) ∧ Series.y s = ys)
       ∨ (Z.of_nat (length ys) < num
          ∧ length (Series.y s) = length (Series._x s))).
Proof.
  unfold Series.__init__. intros Hinit.
  assert (∃ r : result (option (list xitem) * Z * Z),
            r ≫= (λ '(x, start_date, num_elements),
              let _x := (λ i, start_date + i) <$> seqZ 0 num_elements in
              y ← (if Z.of_nat (length ys) <? num_elements then
                     xs ← from_option Ok (Err TypeError) x;
                     x_to_y ← map_x_to_y xs ys;
                     Ok (fill_loop x_to_y _x 0%Q)
                   else Ok ys);
              Ok {| Series._x := _x; Series.x := to_datetime <$> _x;
                    Series.y := y |}) = Ok s) as [r Hr].
  { destruct x, sd; try done; eauto. }
  clear Hinit. destruct r as [[[x' start] num]|]; [|done].
  rewrite Ok_bind in Hr. cbv zeta in Hr.
  apply bind_Ok in Hr as (y' & Hy & [= <-]). simpl.
  exists start, num. rewrite date_range_seqZ. split; [done|]. split; [done|].
  destruct (Z.ltb_spec (Z.of_nat (length ys)) num) as [Hlt|Hge].
  - right. split; [done|].
    apply bind_Ok in Hy as (xs & _ & Hy).
    apply bind_Ok in Hy as (m & _ & [= <-]).
    by rewrite fill_loop_length, date_range_seqZ.
  - left. split; [done|]. by injection Hy.
Qed.

(** X7. Whatever its arguments are, a series that the constructor returns
    has consecutive dates, holds in [x] the same days as datetimes, and has
    at least as many values as dates: the values are the caller's own, or
    they were filled and are as many as the dates. *)
Theorem init_postcondition (ys : list Q) (x : option (list xitem))
    (sd : option start_arg) (s : Series.t) :
  Series.__init__ ys x sd = Ok s →
  (∃ start, Series._x s = seqZ start (Z.of_nat (length (Series._x s))))
  ∧ Series.x s = to_datetime <$> Series._x s
  ∧ (length (Series._x s) ≤ length (Series.y s))%nat
  ∧ (Series.y s = ys ∨ length (Series.y s) = length (Series._x s)).
Proof.
  intros (start & num & Hx_ & Hx & Hy)%init_Ok_cases.
  split; [|split; [done|]].
  - exists start. rewrite Hx_ at 1. rewrite Hx_, length_seqZ.
    destruct (decide (0 ≤ num)) as [Hnum|Hnum].
    + by rewrite Z2Nat.id.
    + by rewrite !seqZ_nil by lia.
  - rewrite Hx_, length_seqZ in *.
    destruct Hy as [[Hle ->]|[Hlt Hlen]]; (split; [lia|auto]).
Qed.

(** X8. When the dates are sorted and there are at least as many values as
    days from the first to the last date, the constructor neither fills nor
    compares lengths: the values are kept as they are, so with a repeated
    date, or with more values than dates, the series has more values than
    days. *)
Theorem init_keeps_surplus_values (ys : list Q) (ds : list date) (d0 d1 : date) :
  Sorted Z.le ds → head ds = Some d0 → last ds = Some d1 →
  d1 - d0 + 1 ≤ Z.of_nat (length ys) →
  Series.__init__ ys (Some (XDate <$> ds)) None
  = Ok {| Series._x := seqZ d0 (d1 - d0 + 1);
          Series.x := to_datetime <$> seqZ d0 (d1 - d0 + 1);
          Series.y := ys |}.
Proof.
  intros Hs Hd0 Hd1 Hlen. rewrite (init_dates_sorted ys ds None d0 d1) by done.
  cbv zeta. by rewrite (proj2 (Z.ltb_ge _ _)) by lia.
Qed.

(** X9. When the dates are sorted and there are fewer values than days from
    the first to the last date, the values must be as many as the dates:
    otherwise the constructor raises [AssertionError]. *)
Theorem init_sparse_length_mismatch (ys : list Q) (ds : list date) (d0 d1 : date) :
  Sorted Z.le ds → head ds = Some d0 → last ds = Some d1 →
  Z.of_nat (length ys) < d1 - d0 + 1 →
  length ds ≠ length ys →
  Series.__init__ ys (Some (XDate <$> ds)) None = Err AssertionError.
Proof.
  intros Hs Hd0 Hd1 Hlen Hne. rewrite (init_dates_sorted ys ds None d0 d1) by done.
  cbv zeta. rewrite (proj2 (Z.ltb_lt _ _)) by lia.
  unfold map_x_to_y. rewrite length_fmap, bool_decide_eq_false_2 by done. done.
Qed.

(** X10. A [start_date] that is the empty string counts as absent: with [x]
    the constructor behaves as if there were no [start_date], and without
    [x] it raises [TypeError] instead of the [ValueError] of the missing
    arguments.  A non-empty string that the date parser rejects raises
    [ParseError], whatever [x] and the values are. *)
Theorem init_start_date_strings :
  (∀ y x, Series.__init__ y (Some x) (Some (StartStr ""))
          = Series.__init__ y (Some x) None)
  ∧ (∀ y, Series.__init__ y None (Some (StartStr "")) = Err TypeError)
  ∧ (∀ y x s, s ≠ "" → get_date_from_isoformat s = None →
       Series.__init__ y x (Some (StartStr s)) = Err ParseError).
Proof.
  split; [done|]. split; [done|].
  intros y x s Hs Hparse. unfold Series.__init__.
  assert (start_truthy (Some (StartStr s)) = true) as ->
    by (simpl; by apply negb_true_iff, String.eqb_neq).
  unfold parse_date. rewrite Hparse. by destruct x.
Qed.
End init_properties.

(** ** map_x_to_y and make_date_sequence *)

Lemma foldl_insert_last (l : list (xitem * Q)) (k : xitem) (v : Q) :
  foldl (λ (x_to_y : gmap xitem Q) xy, <[xy.1 := xy.2]> x_to_y) ∅ l !! k = Some v
  ↔ ∃ j, l !! j = Some (k, v)
         ∧ ∀ j' v', (j < j')%nat → l !! j' ≠ Some (k, v').
Proof.
  induction l as [|[k' v'] l IH] using rev_ind.
  - simpl. rewrite lookup_empty. split; [done|]. by intros (j & Hj & _).
  - rewrite foldl_snoc. simpl. destruct (decide (k' = k)) as [->|Hne].
    + rewrite lookup_insert_eq. split.
      * intros [= ->]. exists (length l). split; [by apply list_lookup_middle|].
        intros j' w Hj' Hl. apply lookup_lt_Some in Hl.
        rewrite length_app in Hl. simpl in Hl. lia.
      * intros (j & Hj & Hlast).
        destruct (decide (j = length l)) as [->|Hjl].
        -- rewrite list_lookup_middle in Hj by done. by injection Hj as ->.
        -- apply lookup_lt_Some in Hj as Hlt. rewrite length_app in Hlt. simpl in Hlt.
           destruct (Hlast (length l) v' ltac:(lia)). by apply list_lookup_middle.
    + rewrite lookup_insert_ne by done. rewrite IH. split.
      * intros (j & Hj & Hlast). exists j. split; [by apply lookup_app_l_Some|].
        intros j' w Hj' Hl. apply lookup_app_Some in Hl as [Hl|[_ Hl]].
        -- by apply (Hlast j' w).
        -- apply list_lookup_singleton_Some in Hl as [_ [= Hk _]]. done.
      * intros (j & Hj & Hlast).
        apply lookup_app_Some in Hj as [Hj|[_ Hj]].
        -- exists j. split; [done|]. intros j' w Hj' Hl.
           apply (Hlast j' w Hj'). by apply lookup_app_l_Some.
        -- apply list_lookup_singleton_Some in Hj as [_ [= Hk _]]. done.
Qed.

(** X11. [map_x_to_y] raises [AssertionError] when the keys and the values
    differ in number; otherwise the dictionary gives each key the value at
    the last position where the key occurs, and holds no other key. *)
Theorem map_x_to_y_last_wins (x : list xitem) (y : list Q) :
  (length x ≠ length y → map_x_to_y x y = Err AssertionError)
  ∧ (length x = length y →
     ∃ m, map_x_to_y x y = Ok m
          ∧ ∀ k v, m !! k = Some v
                   ↔ ∃ j, x !! j = Some k ∧ y !! j = Some v
                          ∧ ∀ j', (j < j')%nat → x !! j' ≠ Some k).
Proof.
  unfold map_x_to_y. split.
  - intros Hne. by rewrite bool_decide_eq_false_2.
  - intros Hlen. rewrite bool_decide_eq_true_2 by done. eexists. split; [done|].
    intros k v. rewrite foldl_insert_last. split.
    + intros (j & Hj & Hlast).
      apply lookup_zip_with_Some in Hj as (k' & v' & [= <- <-] & Hk & Hv).
      exists j. split; [done|]. split; [done|].
      intros j' Hj' Hk'.
      destruct (y !! j') as [w|] eqn:Hw.
      * apply (Hlast j' w Hj'). apply lookup_zip_with_Some. by exists k, w.
      * apply lookup_ge_None in Hw. apply lookup_lt_Some in Hk'. lia.
    + intros (j & Hk & Hv & Hlast). exists j. split.
      * apply lookup_zip_with_Some. by exists k, v.
      * intros j' w Hj' (k' & v' & [= <- <-] & Hk' & _)%lookup_zip_with_Some.
        by apply (Hlast j').
Qed.

Section make_date_sequence.
Context `{DateParsing}.

Lemma make_date_Err (a : xitem) (e : exn) : make_date a = Err e → e = ParseError.
Proof.
  unfold make_date, parse_date. destruct a; repeat case_match; by intros [= <-].
Qed.

Lemma make_date_sequence_cons (a : xitem) (x : list xitem) :
  make_date_sequence (a :: x)
  = make_date a ≫= λ d, make_date_sequence x ≫= λ ds, Ok (d :: ds).
Proof. done. Qed.

(** X12. [make_date_sequence] converts element by element, in order: it
    succeeds exactly when every element converts (a date is kept, a string
    and the ISO form of a datetime are parsed), and any failure is a
    [ParseError] of an element. *)
Theorem make_date_sequence_spec (x : list xitem) :
  (∀ ds, make_date_sequence x = Ok ds
         ↔ Forall2 (λ a d, make_date a = Ok d) x ds)
  ∧ (∀ e, make_date_sequence x = Err e
          → e = ParseError ∧ Exists (λ a, make_date a = Err ParseError) x).
Proof.
  induction x as [|a x [IHok IHerr]].
  - split.
    + intros ds. split.
      * intros [= <-]. constructor.
      * by intros ->%Forall2_nil_inv_l.
    + by intros e.
  - rewrite make_date_sequence_cons. split.
    + intros ds. split.
      * intros (d & Hd & (ds' & Hds' & [= <-])%bind_Ok)%bind_Ok.
        constructor; [done|]. by apply IHok.
      * intros (d & ds' & Hd & Hds' & ->)%Forall2_cons_inv_l.
        rewrite Hd, Ok_bind. apply IHok in Hds'. by rewrite Hds'.
    + intros e. destruct (make_date a) as [d|e'] eqn:Hd.
      * rewrite Ok_bind. destruct (make_date_sequence x) as [ds|e''] eqn:Hds; [done|].
        intros [= <-]. destruct (IHerr e'' eq_refl) as [-> Hex].
        split; [done|]. by apply Exists_cons_tl.
      * intros [= <-]. pose proof (make_date_Err a e' Hd) as ->.
        split; [done|]. by apply Exists_cons_hd.
Qed.
End make_date_sequence.

(** ** Series.__getitem__ and get_stop_index *)

Section getitem.
Context `{DateParsing}.

(** X13. On a non-empty series of consecutive days with one value per day,
    indexing by a calendar date (or by a string the date parser accepts)
    never raises: it returns the value at the day offset clamped into the
    series, so dates before the first day read the first value and dates
    after the last day read the last value. *)
Theorem getitem_date_clamps (s : Series.t) (first : date) (v : index_arg) (d : date) :
  Series._x s = seqZ first (Series.__len__ s) →
  0 < Series.__len__ s →
  index_date v = Some d →
  ∃ value,
    Series.__getitem__ s v = Ok value
    ∧ Series.y s !! Z.to_nat (clamped (Series.__len__ s) (d - first)) = Some value
    ∧ (d ≤ first → head (Series.y s) = Some value)
    ∧ (first + Series.__len__ s - 1 ≤ d → last (Series.y s) = Some value).
Proof.
  intros Hx_ Hn Hv. unfold Series.__getitem__.
  rewrite (get_index_date s v d first); [|done|by rewrite Hx_, seqZ_cons by lia].
  rewrite Hx_, length_seqZ, Z2Nat.id by lia. fold (clamped (Series.__len__ s) (d - first)).
  set (i := clamped (Series.__len__ s) (d - first)).
  assert (0 ≤ i < Series.__len__ s) as Hi by (unfold i, clamped; lia).
  destruct (Series.y s !! Z.to_nat i) as [value|] eqn:Hval.
  2:{ apply lookup_ge_None in Hval. unfold Series.__len__ in *. lia. }
  exists value. rewrite Ok_bind. split; [|split; [done|split]].
  - apply (py_index_Ok _ i i); [|done|lia]. by rewrite (proj2 (Z.ltb_ge i 0)) by lia.
  - intros Hd. rewrite head_lookup. rewrite <- Hval. f_equal. unfold i, clamped. lia.
  - intros Hd. rewrite last_lookup. rewrite <- Hval. f_equal.
    unfold i, clamped, Series.__len__ in *. lia.
Qed.

(** X14. An integer index is not clamped: [__getitem__] reads the value at
    that position, counting from the end when the integer is negative, and
    raises [IndexError] when the integer is outside [-len, len). *)
Theorem getitem_int_not_clamped (s : Series.t) (i : Z) :
  (0 ≤ i < Series.__len__ s →
   ∃ value, Series.__getitem__ s (IInt i) = Ok value
            ∧ Series.y s !! Z.to_nat i = Some value)
  ∧ (- Series.__len__ s ≤ i < 0 →
     ∃ value, Series.__getitem__ s (IInt i) = Ok value
              ∧ Series.y s !! Z.to_nat (Series.__len__ s + i) = Some value)
  ∧ (i < - Series.__len__ s ∨ Series.__len__ s ≤ i →
     Series.__getitem__ s (IInt i) = Err IndexError).
Proof.
  unfold Series.__getitem__, Series.__len__, Series.get_index.
  rewrite !Ok_bind.
  split; [|split].
  - intros Hi. destruct (Series.y s !! Z.to_nat i) as [value|] eqn:Hval.
    2:{ apply lookup_ge_None in Hval. lia. }
    exists value. split; [|done].
    apply (py_index_Ok _ i i); [|done|lia]. by rewrite (proj2 (Z.ltb_ge i 0)) by lia.
  - intros Hi.
    destruct (Series.y s !! Z.to_nat (Z.of_nat (length (Series.y s)) + i))
      as [value|] eqn:Hval.
    2:{ apply lookup_ge_None in Hval. lia. }
    exists value. split; [|done].
    apply (py_index_Ok _ i (Z.of_nat (length (Series.y s)) + i)); [|done|lia].
    rewrite (proj2 (Z.ltb_lt i 0)) by lia. lia.
  - intros Hi. unfold py_index. cbv zeta. destruct (Z.ltb_spec i 0).
    + destruct Hi as [Hi|Hi]; [|lia]. by rewrite (proj2 (Z.leb_gt 0 _)) by lia.
    + destruct Hi as [Hi|Hi]; [lia|].
      rewrite (proj2 (Z.ltb_ge i _)) by lia. by rewrite andb_false_r.
Qed.

(** X15. The stop index never lies beyond the end of the series; it is the
    length when there is no stop, and for a date on a non-empty series of
    consecutive days it is one past the clamped offset of the date, so the
    day of the stop is kept. *)
Theorem get_stop_index_bounds (s : Series.t) :
  Series.get_stop_index s None = Ok (Series.__len__ s)
  ∧ (∀ stop b, Series.get_stop_index s stop = Ok b → b ≤ Series.__len__ s)
  ∧ (∀ first v d,
       Series._x s = seqZ first (Series.__len__ s) →
       0 < Series.__len__ s →
       index_date v = Some d →
       Series.get_stop_index s (Some v)
       = Ok (clamped (Series.__len__ s) (d - first) + 1)).
Proof.
  unfold Series.get_stop_index. split; [|split].
  - simpl. by rewrite Z.min_id.
  - intros stop b (b0 & _ & [= <-])%bind_Ok. lia.
  - intros first v d Hx_ Hn Hv.
    rewrite (get_index_date s v d first); [|done|by rewrite Hx_, seqZ_cons by lia].
    rewrite Hx_, length_seqZ, Z2Nat.id by lia. simpl. f_equal.
    unfold clamped. lia.
Qed.
End getitem.

(** ** plot: layout, items and colors *)

Lemma update_layout_fields (fig : Figure) (t : string) (log_scale : bool)
    (size : option Z) (ymax : option Q) (n : nat) :
  title (update_layout fig t log_scale size ymax n) = Some t
  ∧ showlegend (update_layout fig t log_scale size ymax n)
    = (if bool_decide (n = 1%nat) then Some false else showlegend fig)
  ∧ yaxis_type (update_layout fig t log_scale size ymax n)
    = (if log_scale then Some "log" else yaxis_type fig)
  ∧ width (update_layout fig t log_scale size ymax n)
    = from_option Some (width fig) (size_truthy size)
  ∧ yaxis_range (update_layout fig t log_scale size ymax n)
    = from_option (λ m, Some (if log_scale then 1%Q else 0%Q, m))
                  (yaxis_range fig) (ymax_truthy ymax).
Proof.
  unfold update_layout.
  destruct (ymax_truthy ymax), log_scale, (size_truthy size), (bool_decide (n = 1%nat));
    done.
Qed.

Section plot_properties.
Context `{DateParsing}.

(** X16. The layout of a figure that [plot] returns: the title is set; the
    legend is switched off exactly when there is one item; the y axis is
    logarithmic exactly when [log_scale] is set; the width is [size] unless
    it is absent or zero; the y range is [[1, ymax]] on a logarithmic axis
    and [[0, ymax]] otherwise, unless [ymax] is absent or zero. *)
Theorem plot_layout (items : list (plot_data * string)) (t : string)
    (log_scale : bool) (size : option Z) (stop start : option index_arg)
    (ymax : option Q) (cindex : option Z) (show : bool) (fig : Figure) :
  plot items t log_scale size stop start ymax cindex show = Ok fig →
  title fig = Some t
  ∧ showlegend fig = (if bool_decide (length items = 1%nat) then Some false else None)
  ∧ yaxis_type fig = (if log_scale then Some "log" else None)
  ∧ width fig = size_truthy size
  ∧ yaxis_range fig
    = (λ m, (if log_scale then 1%Q else 0%Q, m)) <$> ymax_truthy ymax.
Proof.
  intros (fills & lines & _ & ->)%plot_Ok.
  destruct (update_layout_fields (add_traces FigureWidget (fills ++ lines))
              t log_scale size ymax (length items)) as (-> & -> & -> & -> & ->).
  simpl. split; [done|]. split; [done|]. split; [done|].
  split; [by destruct (size_truthy size)|by destruct (ymax_truthy ymax)].
Qed.

Lemma plot_item_central_only (data : plot_data) (pop_name : string)
    (color_index : Z) (stop start : option index_arg)
    (area_fns line_fns : list deferred) :
  plot_item (central_only (data, pop_name)).1 (central_only (data, pop_name)).2
            color_index stop start false area_fns line_fns
  = plot_item data pop_name color_index stop start false area_fns line_fns.
Proof.
  by destruct data as [s|[|c [|l [|u [|]]]]].
Qed.

Lemma plot_loop_central_only (items : list (plot_data * string)) (i : Z)
    (stop start : option index_arg) (cindex : option Z)
    (area_fns line_fns : list deferred) :
  plot_loop (central_only <$> items) i stop start cindex false area_fns line_fns
  = plot_loop items i stop start cindex false area_fns line_fns.
Proof.
  revert i area_fns line_fns.
  induction items as [|[data name] items IH]; intros i area_fns line_fns; [done|].
  rewrite fmap_cons.
  destruct (central_only (data, name)) as [data' name'] eqn:Hc.
  rewrite !plot_loop_cons.
  pose proof (plot_item_central_only data name (color_of cindex i) stop start
                area_fns line_fns) as Hitem.
  rewrite Hc in Hitem. simpl in Hitem. rewrite Hitem.
  destruct (plot_item data name _ _ _ _ _ _) as [[a l]|]; [|done].
  rewrite !Ok_bind. apply IH.
Qed.

(** X17. Without confidence intervals the bounds of a triple play no part:
    [plot] with [show_confidence_interval] false returns what it returns
    when every triple (central, lower, upper) is replaced by its central
    series alone, even when a lower or an upper series cannot be trimmed. *)
Theorem plot_without_confidence_interval (items : list (plot_data * string))
    (t : string) (log_scale : bool) (size : option Z)
    (stop start : option index_arg) (ymax : option Q) (cindex : option Z) :
  plot items t log_scale size stop start ymax cindex false
  = plot (central_only <$> items) t log_scale size stop start ymax cindex false.
Proof.
  unfold plot. cbv zeta. by rewrite plot_loop_central_only, length_fmap.
Qed.

(** The one trace of a deferred band, and of a deferred line. *)
Lemma traces_of_band (L U : Series.t) (legend : option string) (c : Z)
    (color : string * string) :
  length (Series.x L) = length (Series.y L) →
  length (Series.x U) = length (Series.y U) →
  Series.__len__ L = Series.__len__ U →
  py_index PLOT_COLORS c = Ok color →
  traces_of [partial_plot_confidence_range L U legend c]
  = Ok [Fill (Series.x U ++ reverse (Series.x L))
             (Series.y U ++ reverse (Series.y L))
             color.2 color.2 (bool_decide (legend ≠ None)) legend].
Proof.
  intros HL HU Hlen Hcolor. unfold Series.__len__ in Hlen.
  unfold traces_of. cbn [call_all call]. unfold plot_confidence_range, concat_seq.
  rewrite !length_reverse.
  rewrite (bool_decide_eq_true_2 (length (Series.x L) = length (Series.x U))) by lia.
  rewrite (bool_decide_eq_true_2 (length (Series.x U) = length (Series.x L))) by lia.
  rewrite (bool_decide_eq_true_2 (length (Series.y U) = length (Series.y L))) by lia.
  simpl. by rewrite Hcolor.
Qed.

Lemma traces_of_one_line (s : Series.t) (name : string) (c : Z)
    (color : string * string) :
  py_index PLOT_COLORS c = Ok color →
  traces_of [partial_plot_line s name c]
  = Ok [Line (Series.x s) (Series.y s) color.1 name].
Proof.
  intros Hcolor. unfold traces_of. cbn [call_all call]. unfold plot_line.
  by rewrite Hcolor.
Qed.

(** X18. An item of two series is a band and nothing else: when the lower
    and the upper series are well formed and their trims have the same
    length, the item gives one fill trace between the trimmed series, shown
    in the legend under the label of the item, and no line. *)
Theorem pair_item_traces (l u L U : Series.t) (pop_name : string) (c : Z)
    (stop start : option index_arg) (show : bool) (color : string * string) :
  well_formed l → well_formed u →
  Series.trim l start stop = Ok L →
  Series.trim u start stop = Ok U →
  Series.__len__ L = Series.__len__ U →
  py_index PLOT_COLORS c = Ok color →
  item_traces (Coll [l; u]) pop_name c stop start show
  = Ok ([Fill (Series.x U ++ reverse (Series.x L))
              (Series.y U ++ reverse (Series.y L))
              color.2 color.2 true (Some pop_name)],
        []).
Proof.
  intros Hl Hu HL HU Hlen Hcolor. unfold item_traces, plot_item. simpl.
  rewrite (trimmed_Coll _ 0 l), (trimmed_Coll _ 1 u), HL, HU by done.
  cbn [mbind result_bind app].
  by rewrite (traces_of_band L U (Some pop_name) c color
                (trimmed_lengths l L start stop Hl HL)
                (trimmed_lengths u U start stop Hu HU) Hlen Hcolor).
Qed.

(** X19. An item of three series (central, lower, upper), with confidence
    intervals shown, is a band without an entry in the legend and a line:
    one fill trace between the trimmed lower and upper series, with no name,
    and one line trace of the trimmed central series under the label of the
    item. *)
Theorem triple_item_traces (c l u C L U : Series.t) (pop_name : string)
    (ci : Z) (stop start : option index_arg) (color : string * string) :
  well_formed l → well_formed u →
  Series.trim c start stop = Ok C →
  Series.trim l start stop = Ok L →
  Series.trim u start stop = Ok U →
  Series.__len__ L = Series.__len__ U →
  py_index PLOT_COLORS ci = Ok color →
  item_traces (Coll [c; l; u]) pop_name ci stop start true
  = Ok ([Fill (Series.x U ++ reverse (Series.x L))
              (Series.y U ++ reverse (Series.y L))
              color.2 color.2 false None],
        [Line (Series.x C) (Series.y C) color.1 pop_name]).
Proof.
  intros Hl Hu HC HL HU Hlen Hcolor. unfold item_traces, plot_item. simpl.
  rewrite (trimmed_Coll _ 1 l), (trimmed_Coll _ 2 u), (trimmed_Coll _ 0 c),
    HC, HL, HU by done.
  cbn [mbind result_bind app].
  rewrite (traces_of_band L U None ci color
             (trimmed_lengths l L start stop Hl HL)
             (trimmed_lengths u U start stop Hu HU) Hlen Hcolor).
  rewrite Ok_bind, (traces_of_one_line C pop_name ci color) by done.
  done.
Qed.
End plot_properties.

(** X20. Without an override the color index of the item at position [k] is
    [k mod 7], which is always in the palette: [plot_line] with it never
    raises and draws with the solid color at that place of the palette.  A
    color index outside [-7, 7) makes [plot_line] raise [IndexError] and
    draw nothing. *)
Theorem plot_line_palette (fig : Figure) (s : Series.t) (pop_name : string) :
  (∀ k, 0 ≤ k →
     ∃ color, PLOT_COLORS !! Z.to_nat (k `mod` 7) = Some color
              ∧ plot_line fig s pop_name (color_of None k)
                = Ok (add_trace fig (Line (Series.x s) (Series.y s) color.1 pop_name)))
  ∧ (∀ c, c < -7 ∨ 7 ≤ c → plot_line fig s pop_name c = Err IndexError).
Proof.
  split.
  - intros k Hk. change (color_of None k) with (k `mod` 7).
    pose proof (Z.mod_pos_bound k 7 ltac:(lia)) as Hmod.
    destruct (PLOT_COLORS !! Z.to_nat (k `mod` 7)) as [color|] eqn:Hcolor.
    2:{ apply lookup_ge_None in Hcolor. simpl in Hcolor. lia. }
    exists color. split; [done|]. unfold plot_line.
    rewrite (py_index_Ok PLOT_COLORS (k `mod` 7) (k `mod` 7) color); [done| |done|lia].
    by rewrite (proj2 (Z.ltb_ge _ 0)) by lia.
  - intros c Hc. unfold plot_line, py_index. cbv zeta.
    change (Z.of_nat (length PLOT_COLORS)) with 7.
    destruct (Z.ltb_spec c 0).
    + destruct Hc as [Hc|Hc]; [|lia]. by rewrite (proj2 (Z.leb_gt 0 _)) by lia.
    + destruct Hc as [Hc|Hc]; [lia|].
      rewrite (proj2 (Z.ltb_ge c 7)) by lia. by rewrite andb_false_r.
Qed.

(** ** plot: colors and number of traces *)

Lemma traces_of_line_inv (s : Series.t) (name : string) (c : Z) (trs : list trace) :
  traces_of [partial_plot_line s name c] = Ok trs →
  ∃ color, py_index PLOT_COLORS c = Ok color
           ∧ trs = [Line (Series.x s) (Series.y s) color.1 name].
Proof.
  unfold traces_of. cbn [call_all call]. unfold plot_line.
  destruct (py_index PLOT_COLORS c) as [color|]; [|done]. simpl.
  intros [= <-]. by exists color.
Qed.

Lemma traces_of_band_inv (low high : Series.t) (legend : option string) (c : Z)
    (trs : list trace) :
  traces_of [partial_plot_confidence_range low high legend c] = Ok trs →
  ∃ color xs ys, py_index PLOT_COLORS c = Ok color
                 ∧ trs = [Fill xs ys color.2 color.2 (bool_decide (legend ≠ None)) legend].
Proof.
  unfold traces_of. cbn [call_all call]. unfold plot_confidence_range.
  destruct (assert _); [|done]. rewrite !Ok_bind.
  destruct (concat_seq _ (Series.x high) _) as [xs|]; [|done]. rewrite !Ok_bind.
  destruct (concat_seq _ (Series.y high) _) as [ys|]; [|done]. rewrite !Ok_bind.
  destruct (py_index PLOT_COLORS c) as [color|]; [|done]. simpl. intros [= <-].
  by exists color, xs, ys.
Qed.

Lemma traces_of_line_color (s : Series.t) (name : string) (c : Z)
    (trs : list trace) (color : string * string) :
  traces_of [partial_plot_line s name c] = Ok trs →
  py_index PLOT_COLORS c = Ok color →
  Forall (uses_color color) trs.
Proof.
  intros (color' & Hc & ->)%traces_of_line_inv Hcolor.
  rewrite Hcolor in Hc. injection Hc as <-. by repeat constructor.
Qed.

Lemma traces_of_band_color (low high : Series.t) (legend : option string) (c : Z)
    (trs : list trace) (color : string * string) :
  traces_of [partial_plot_confidence_range low high legend c] = Ok trs →
  py_index PLOT_COLORS c = Ok color →
  Forall (uses_color color) trs.
Proof.
  intros (color' & xs & ys & Hc & ->)%traces_of_band_inv Hcolor.
  rewrite Hcolor in Hc. injection Hc as <-. by repeat constructor.
Qed.

Section plot_counts.
Context `{DateParsing}.

(** What the loop defers for one item, by the shape of the item. *)
Lemma plot_item_shape (data : plot_data) (pop_name : string) (ci : Z)
    (stop start : option index_arg) (show : bool) (a l : list deferred) :
  plot_item data pop_name ci stop start show [] [] = Ok (a, l) →
  (∃ c C, data = Coll [c]
          ∧ a = [] ∧ l = [partial_plot_line C pop_name ci])
  ∨ (∃ lo hi L U, data = Coll [lo; hi]
          ∧ a = [partial_plot_confidence_range L U (Some pop_name) ci] ∧ l = [])
  ∨ (∃ c lo hi C L U, data = Coll [c; lo; hi] ∧ show = true
          ∧ a = [partial_plot_confidence_range L U None ci]
          ∧ l = [partial_plot_line C pop_name ci])
  ∨ (∃ c lo hi C, data = Coll [c; lo; hi] ∧ show = false
          ∧ a = [] ∧ l = [partial_plot_line C pop_name ci]).
Proof.
  destruct data as [s|[|c [|lo [|hi [|extra rest]]]]].
  - unfold plot_item. simpl isinstance_Series. simpl orb. cbv iota.
    by rewrite trimmed_Bare.
  - by rewrite plot_item_invalid.
  - unfold plot_item. simpl.
    destruct (trimmed _ 0 _ _) as [C|]; [|done]. intros [= <- <-].
    left. by exists c, C.
  - unfold plot_item. simpl.
    destruct (trimmed _ 0 _ _) as [L|]; [|done]. rewrite Ok_bind.
    destruct (trimmed _ 1 _ _) as [U|]; [|done]. intros [= <- <-].
    right. left. by exists c, lo, L, U.
  - unfold plot_item. simpl. destruct show.
    + destruct (trimmed _ 1 _ _) as [L|]; [|done]. rewrite Ok_bind.
      destruct (trimmed _ 2 _ _) as [U|]; [|done]. rewrite !Ok_bind.
      destruct (trimmed _ 0 _ _) as [C|]; [|done]. intros [= <- <-].
      right. right. left. by exists c, lo, hi, C, L, U.
    + rewrite Ok_bind.
      destruct (trimmed _ 0 _ _) as [C|]; [|done]. intros [= <- <-].
      right. right. right. by exists c, lo, hi, C.
  - rewrite plot_item_invalid; [done|simpl; lia..].
Qed.

Lemma item_traces_colors (data : plot_data) (pop_name : string) (ci : Z)
    (stop start : option index_arg) (show : bool) (fills lines : list trace)
    (color : string * string) :
  item_traces data pop_name ci stop start show = Ok (fills, lines) →
  py_index PLOT_COLORS ci = Ok color →
  Forall (uses_color color) (fills ++ lines).
Proof.
  intros (a & l & Hitem & Hf & Hl)%item_traces_Ok Hcolor.
  apply Forall_app.
  apply plot_item_shape in Hitem
    as [(c & C & _ & -> & ->)|[(lo & hi & L & U & _ & -> & ->)
       |[(c & lo & hi & C & L & U & _ & _ & -> & ->)|(c & lo & hi & C & _ & _ & -> & ->)]]].
  all: split.
  all: first [ by eapply traces_of_line_color
             | by eapply traces_of_band_color
             | rewrite traces_of_nil in Hf; injection Hf as <-; constructor
             | rewrite traces_of_nil in Hl; injection Hl as <-; constructor ].
Qed.

Lemma item_traces_count (data : plot_data) (pop_name : string) (ci : Z)
    (stop start : option index_arg) (show : bool) (fills lines : list trace) :
  item_traces data pop_name ci stop start show = Ok (fills, lines) →
  (∃ l, data = Coll l ∧ (1 ≤ length l ≤ 3)%nat)
  ∧ (length fills + length lines = traces_per_item show data)%nat.
Proof.
  intros (a & l & Hitem & Hf & Hl)%item_traces_Ok.
  apply plot_item_shape in Hitem
    as [(c & C & -> & -> & ->)|[(lo & hi & L & U & -> & -> & ->)
       |[(c & lo & hi & C & L & U & -> & -> & -> & ->)
        |(c & lo & hi & C & -> & -> & -> & ->)]]].
  all: repeat match goal with
       | H : traces_of [] = Ok _ |- _ => injection H as <-
       | H : traces_of [partial_plot_line _ _ _] = Ok _ |- _ =>
           apply traces_of_line_inv in H as (? & ? & ->)
       | H : traces_of [partial_plot_confidence_range _ _ _ _] = Ok _ |- _ =>
           apply traces_of_band_inv in H as (? & ? & ? & ? & ->)
       end.
  all: split; [eexists; split; [done|simpl; lia]|done].
Qed.

(** X21. With a color override every trace of the figure is drawn with the
    one entry of the palette that the override selects: lines with its
    solid color, fills with its translucent color, whatever the position of
    their item. *)
Theorem plot_color_override (items : list (plot_data * string)) (t : string)
    (log_scale : bool) (size : option Z) (stop start : option index_arg)
    (ymax : option Q) (c : Z) (show : bool) (fig : Figure)
    (color : string * string) :
  plot items t log_scale size stop start ymax (Some c) show = Ok fig →
  py_index PLOT_COLORS c = Ok color →
  Forall (uses_color color) (data fig).
Proof.
  intros (fills & lines & Htraces & ->)%plot_Ok Hcolor.
  rewrite update_layout_data. simpl.
  revert Htraces. generalize 0. revert fills lines.
  induction items as [|[data name] items IH]; intros fills lines i.
  - intros [= <- <-]. constructor.
  - simpl.
    destruct (item_traces _ _ _ _ _ _) as [[f0 l0]|] eqn:Hitem; [|done].
    rewrite Ok_bind.
    destruct (items_traces _ _ _ _ _ _) as [[f' l']|] eqn:Hrest; [|done].
    rewrite Ok_bind. intros [= <- <-].
    apply (item_traces_colors _ _ _ _ _ _ _ _ color) in Hitem; [|done].
    apply IH in Hrest.
    apply Forall_app in Hitem as [??]. apply Forall_app in Hrest as [??].
    repeat (apply Forall_app; split); done.
Qed.

(** X22. [plot] returns a figure only when every item is a sequence of one,
    two or three series (never for a bare series), and the figure then has
    one trace for each single series and each pair, and two for each triple
    (one when confidence intervals are not shown). *)
Theorem plot_trace_count (items : list (plot_data * string)) (t : string)
    (log_scale : bool) (size : option Z) (stop start : option index_arg)
    (ymax : option Q) (cindex : option Z) (show : bool) (fig : Figure) :
  plot items t log_scale size stop start ymax cindex show = Ok fig →
  Forall (λ item, ∃ l, item.1 = Coll l ∧ (1 ≤ length l ≤ 3)%nat) items
  ∧ length (data fig) = sum_list (traces_per_item show ∘ fst <$> items).
Proof.
  intros (fills & lines & Htraces & ->)%plot_Ok.
  rewrite update_layout_data. simpl. rewrite length_app.
  revert Htraces. generalize 0. revert fills lines.
  induction items as [|[data name] items IH]; intros fills lines i.
  - intros [= <- <-]. by split.
  - simpl items_traces.
    destruct (item_traces _ _ _ _ _ _) as [[f0 l0]|] eqn:Hitem; [|done].
    rewrite Ok_bind.
    destruct (items_traces _ _ _ _ _ _) as [[f' l']|] eqn:Hrest; [|done].
    rewrite Ok_bind. intros [= <- <-].
    apply item_traces_count in Hitem as [Hshape Hcount].
    apply IH in Hrest as [Hall Hsum].
    split; [by constructor|]. rewrite !length_app, fmap_cons.
    change (sum_list (?n :: ?l)) with (n + sum_list l)%nat.
    change ((traces_per_item show ∘ fst) (data, name))
      with (traces_per_item show data).
    lia.
Qed.
End plot_counts.

(** ** The further properties at concrete inputs *)

Section more_witnesses.
Import Ex Ex2.

Lemma week_well_formed : well_formed week.
Proof. apply dense_series_well_formed. Qed.

Lemma trim_keeps_invariant_witness :
  well_formed week
  ∧ Series.trim week (Some (IInt 1)) (Some (IInt 3))
    = Ok (dense_series (d + 1) [2%Q; 3%Q; 4%Q])
  ∧ well_formed (dense_series (d + 1) [2%Q; 3%Q; 4%Q])
  ∧ 0 < Series.__len__ (dense_series (d + 1) [2%Q; 3%Q; 4%Q]) ≤ Series.__len__ week
  ∧ ∃ k : nat,
      Series._x (dense_series (d + 1) [2%Q; 3%Q; 4%Q])
      = take (Z.to_nat (Series.__len__ (dense_series (d + 1) [2%Q; 3%Q; 4%Q])))
             (drop k (Series._x week))
      ∧ Series.y (dense_series (d + 1) [2%Q; 3%Q; 4%Q])
        = take (Z.to_nat (Series.__len__ (dense_series (d + 1) [2%Q; 3%Q; 4%Q])))
               (drop k (Series.y week)).
Proof.
  split; [apply week_well_formed|]. split; [vm_compute; reflexivity|].
  apply (trim_keeps_invariant week (dense_series (d + 1) [2%Q; 3%Q; 4%Q])
           (Some (IInt 1)) (Some (IInt 3)) week_well_formed).
  vm_compute. reflexivity.
Defined.

Lemma trim_without_bounds_witness :
  well_formed week ∧ 0 < Series.__len__ week
  ∧ Series.trim week None None = Ok week.
Proof.
  split; [apply week_well_formed|]. split; [reflexivity|].
  apply (trim_without_bounds week week_well_formed). reflexivity.
Defined.

Lemma trim_empty_range_IndexError_witness :
  Series._x week = seqZ d (Series.__len__ week)
  ∧ 0 ≤ 1 < 3
  ∧ Series.trim week (Some (IInt 3)) (Some (IInt 1)) = Err IndexError
  ∧ Series.get_index week (or_zero None) = Ok 0
  ∧ Series.trim week None (Some (IInt (-1))) = Err IndexError.
Proof.
  split; [reflexivity|]. split; [lia|].
  split; [|split; [reflexivity|]].
  - apply (proj1 (proj2 (trim_empty_range_IndexError week d eq_refl)) 3 1). lia.
  - apply (proj2 (proj2 (trim_empty_range_IndexError week d eq_refl)) None 0).
    reflexivity.
Defined.

Lemma trim_dates_inclusive_witness :
  Series._x week = seqZ d (Series.__len__ week)
  ∧ 0 < Series.__len__ week
  ∧ d - 10 ≤ d + 2
  ∧ Series.trim week (Some (IDate (d - 10))) (Some (IDate (d + 2)))
    = Ok (dense_series (d + clamped (Series.__len__ week) (d - 10 - d))
            (take (Z.to_nat (clamped (Series.__len__ week) (d + 2 - d)
                             - clamped (Series.__len__ week) (d - 10 - d) + 1))
                  (drop (Z.to_nat (clamped (Series.__len__ week) (d - 10 - d)))
                        (Series.y week)))).
Proof.
  split; [reflexivity|]. split; [reflexivity|]. split; [lia|].
  apply (trim_dates_inclusive week d (d - 10) (d + 2)); [reflexivity|reflexivity|lia].
Defined.

Lemma trim_ints_inclusive_witness :
  Series._x week = seqZ d (Series.__len__ week)
  ∧ 0 ≤ 2 ≤ 40 ∧ 2 < Series.__len__ week
  ∧ Series.trim week (Some (IInt 2)) (Some (IInt 40))
    = Ok (dense_series (d + 2)
            (take (Z.to_nat (Z.min 40 (Series.__len__ week - 1) - 2 + 1))
                  (drop (Z.to_nat 2) (Series.y week)))).
Proof.
  split; [reflexivity|]. split; [lia|]. split; [reflexivity|].
  apply (trim_ints_inclusive week d 2 40); [reflexivity|lia|reflexivity].
Defined.

Lemma trim_idempotent_witness :
  well_formed week
  ∧ Series.trim week (Some (IInt 1)) (Some (IInt 3))
    = Ok (dense_series (d + 1) [2%Q; 3%Q; 4%Q])
  ∧ Series.trim (dense_series (d + 1) [2%Q; 3%Q; 4%Q]) None None
    = Ok (dense_series (d + 1) [2%Q; 3%Q; 4%Q]).
Proof.
  split; [apply week_well_formed|]. split; [vm_compute; reflexivity|].
  apply (trim_idempotent week (dense_series (d + 1) [2%Q; 3%Q; 4%Q])
           (Some (IInt 1)) (Some (IInt 3)) week_well_formed).
  vm_compute. reflexivity.
Defined.

Lemma init_postcondition_witness :
  Series.__init__ [1%Q; 2%Q] (Some [XDate d; XDate d]) None
  = Ok {| Series._x := [d]; Series.x := [to_datetime d]; Series.y := [1%Q; 2%Q] |}
  ∧ (∃ start, [d] = seqZ start (Z.of_nat (length [d])))
  ∧ [to_datetime d] = to_datetime <$> [d]
  ∧ (length [d] ≤ length [1%Q; 2%Q])%nat
  ∧ ([1%Q; 2%Q] = [1%Q; 2%Q] ∨ length [1%Q; 2%Q] = length [d]).
Proof.
  split; [vm_compute; reflexivity|].
  apply (init_postcondition [1%Q; 2%Q] (Some [XDate d; XDate d]) None
           {| Series._x := [d]; Series.x := [to_datetime d];
              Series.y := [1%Q; 2%Q] |}).
  vm_compute. reflexivity.
Defined.

Lemma repeated_date_Sorted : Sorted Z.le [d; d].
Proof. repeat constructor. unfold d. lia. Qed.

Lemma init_keeps_surplus_values_witness :
  Sorted Z.le [d; d] ∧ head [d; d] = Some d ∧ last [d; d] = Some d
  ∧ d - d + 1 ≤ Z.of_nat (length [1%Q; 2%Q])
  ∧ Series.__init__ [1%Q; 2%Q] (Some (XDate <$> [d; d])) None
    = Ok {| Series._x := seqZ d (d - d + 1);
            Series.x := to_datetime <$> seqZ d (d - d + 1);
            Series.y := [1%Q; 2%Q] |}.
Proof.
  split; [apply repeated_date_Sorted|]. split; [reflexivity|].
  split; [reflexivity|]. split; [simpl; lia|].
  apply (init_keeps_surplus_values [1%Q; 2%Q] [d; d] d d repeated_date_Sorted);
    [reflexivity|reflexivity|simpl; lia].
Defined.

Lemma sparse_pair_Sorted : Sorted Z.le [d; d + 4].
Proof. repeat constructor. unfold d. lia. Qed.

Lemma init_sparse_length_mismatch_witness :
  Sorted Z.le [d; d + 4] ∧ head [d; d + 4] = Some d
  ∧ last [d; d + 4] = Some (d + 4)
  ∧ Z.of_nat (length [1%Q; 2%Q; 3%Q]) < d + 4 - d + 1
  ∧ length [d; d + 4] ≠ length [1%Q; 2%Q; 3%Q]
  ∧ Series.__init__ [1%Q; 2%Q; 3%Q] (Some (XDate <$> [d; d + 4])) None
    = Err AssertionError.
Proof.
  split; [apply sparse_pair_Sorted|]. split; [reflexivity|].
  split; [reflexivity|]. split; [simpl; lia|]. split; [simpl; lia|].
  apply (init_sparse_length_mismatch [1%Q; 2%Q; 3%Q] [d; d + 4] d (d + 4)
           sparse_pair_Sorted); [reflexivity|reflexivity|simpl; lia|simpl; lia].
Defined.

Lemma init_start_date_strings_witness :
  "2020-02-30" ≠ "" ∧ get_date_from_isoformat "2020-02-30" = None
  ∧ Series.__init__ [1%Q] (Some [XDate d]) (Some (StartStr "2020-02-30"))
    = Err ParseError.
Proof.
  split; [done|]. split; [reflexivity|].
  apply (proj2 (proj2 init_start_date_strings) [1%Q] (Some [XDate d]) "2020-02-30");
    [done|reflexivity].
Defined.

Lemma map_x_to_y_last_wins_witness :
  length [XDate d; XDate (d + 1); XDate d] = length [1%Q; 2%Q; 3%Q]
  ∧ ∃ m, map_x_to_y [XDate d; XDate (d + 1); XDate d] [1%Q; 2%Q; 3%Q] = Ok m
         ∧ ∀ k v, m !! k = Some v
                  ↔ ∃ j, [XDate d; XDate (d + 1); XDate d] !! j = Some k
                         ∧ [1%Q; 2%Q; 3%Q] !! j = Some v
                         ∧ ∀ j', (j < j')%nat →
                             [XDate d; XDate (d + 1); XDate d] !! j' ≠ Some k.
Proof.
  split; [reflexivity|].
  apply (proj2 (map_x_to_y_last_wins [XDate d; XDate (d + 1); XDate d]
                  [1%Q; 2%Q; 3%Q])).
  reflexivity.
Defined.

Lemma make_date_sequence_spec_witness :
  make_date_sequence [XDate d; XStr "2020-03-02"] = Ok [d; d + 1]
  ∧ Forall2 (λ a d, make_date a = Ok d) [XDate d; XStr "2020-03-02"] [d; d + 1]
  ∧ make_date_sequence [XDate d; XStr "March"] = Err ParseError
  ∧ ParseError = ParseError
  ∧ Exists (λ a, make_date a = Err ParseError) [XDate d; XStr "March"].
Proof.
  split; [vm_compute; reflexivity|]. split.
  - apply (proj1 (proj1 (make_date_sequence_spec [XDate d; XStr "2020-03-02"])
                    [d; d + 1])).
    vm_compute. reflexivity.
  - split; [vm_compute; reflexivity|].
    apply (proj2 (make_date_sequence_spec [XDate d; XStr "March"]) ParseError).
    vm_compute. reflexivity.
Defined.

Lemma getitem_date_clamps_witness :
  Series._x week = seqZ d (Series.__len__ week)
  ∧ 0 < Series.__len__ week
  ∧ index_date (IStr "2021-01-01") = Some (d + 306)
  ∧ ∃ value,
      Series.__getitem__ week (IStr "2021-01-01") = Ok value
      ∧ Series.y week !! Z.to_nat (clamped (Series.__len__ week) (d + 306 - d))
        = Some value
      ∧ (d + 306 ≤ d → head (Series.y week) = Some value)
      ∧ (d + Series.__len__ week - 1 ≤ d + 306 → last (Series.y week) = Some value).
Proof.
  split; [reflexivity|]. split; [reflexivity|]. split; [reflexivity|].
  apply (getitem_date_clamps week d (IStr "2021-01-01") (d + 306)); reflexivity.
Defined.

Lemma getitem_int_not_clamped_witness :
  (- Series.__len__ week ≤ -1 < 0)
  ∧ (∃ value, Series.__getitem__ week (IInt (-1)) = Ok value
              ∧ Series.y week !! Z.to_nat (Series.__len__ week + -1) = Some value)
  ∧ (5 < - Series.__len__ week ∨ Series.__len__ week ≤ 5)
  ∧ Series.__getitem__ week (IInt 5) = Err IndexError.
Proof.
  split; [by vm_compute|]. split.
  - apply (proj1 (proj2 (getitem_int_not_clamped week (-1)))).
    by vm_compute.
  - split; [right; by vm_compute|].
    apply (proj2 (proj2 (getitem_int_not_clamped week 5))).
    right. by vm_compute.
Defined.

Lemma get_stop_index_bounds_witness :
  Series.get_stop_index week (Some (IInt 40)) = Ok 5
  ∧ 5 ≤ Series.__len__ week
  ∧ Series._x week = seqZ d (Series.__len__ week)
  ∧ 0 < Series.__len__ week
  ∧ index_date (IDate (d + 1)) = Some (d + 1)
  ∧ Series.get_stop_index week (Some (IDate (d + 1)))
    = Ok (clamped (Series.__len__ week) (d + 1 - d) + 1).
Proof.
  split; [reflexivity|]. split.
  - apply (proj1 (proj2 (get_stop_index_bounds week)) (Some (IInt 40)) 5).
    reflexivity.
  - split; [reflexivity|]. split; [reflexivity|]. split; [reflexivity|].
    apply (proj2 (proj2 (get_stop_index_bounds week)) d (IDate (d + 1)) (d + 1));
      reflexivity.
Defined.

Lemma plot_layout_witness :
  ∃ fig,
    plot [line_only] "Cases" true (Some 800) None None (Some (100 # 1)%Q) None true
    = Ok fig
    ∧ title fig = Some "Cases"
    ∧ showlegend fig
      = (if bool_decide (length [line_only] = 1%nat) then Some false else None)
    ∧ yaxis_type fig = (if true then Some "log" else None)
    ∧ width fig = size_truthy (Some 800)
    ∧ yaxis_range fig
      = (λ m, (if true then 1%Q else 0%Q, m)) <$> ymax_truthy (Some (100 # 1)%Q).
Proof.
  eexists. split; [vm_compute; reflexivity|].
  apply (plot_layout [line_only] "Cases" true (Some 800) None None
           (Some (100 # 1)%Q) None true).
  vm_compute. reflexivity.
Defined.

Lemma pair_item_traces_witness :
  well_formed lower ∧ well_formed upper
  ∧ Series.trim lower None None = Ok lower
  ∧ Series.trim upper None None = Ok upper
  ∧ Series.__len__ lower = Series.__len__ upper
  ∧ py_index PLOT_COLORS 1 = Ok ("rgba(255,0,0,1)", "rgba(255,0,0,0.25)")
  ∧ item_traces (Coll [lower; upper]) "band" 1 None None true
    = Ok ([Fill (Series.x upper ++ reverse (Series.x lower))
                (Series.y upper ++ reverse (Series.y lower))
                "rgba(255,0,0,0.25)" "rgba(255,0,0,0.25)" true (Some "band")],
          []).
Proof.
  split; [apply dense_series_well_formed|]. split; [apply dense_series_well_formed|].
  split; [reflexivity|]. split; [reflexivity|]. split; [reflexivity|].
  split; [reflexivity|].
  apply (pair_item_traces lower upper lower upper "band" 1 None None true
           ("rgba(255,0,0,1)", "rgba(255,0,0,0.25)")
           (dense_series_well_formed _ _) (dense_series_well_formed _ _));
    reflexivity.
Defined.

Lemma triple_item_traces_witness :
  well_formed lower ∧ well_formed upper
  ∧ Series.trim central None None = Ok central
  ∧ Series.trim lower None None = Ok lower
  ∧ Series.trim upper None None = Ok upper
  ∧ Series.__len__ lower = Series.__len__ upper
  ∧ py_index PLOT_COLORS 1 = Ok ("rgba(255,0,0,1)", "rgba(255,0,0,0.25)")
  ∧ item_traces (Coll [central; lower; upper]) "B" 1 None None true
    = Ok ([Fill (Series.x upper ++ reverse (Series.x lower))
                (Series.y upper ++ reverse (Series.y lower))
                "rgba(255,0,0,0.25)" "rgba(255,0,0,0.25)" false None],
          [Line (Series.x central) (Series.y central) "rgba(255,0,0,1)" "B"]).
Proof.
  split; [apply dense_series_well_formed|]. split; [apply dense_series_well_formed|].
  split; [reflexivity|]. split; [reflexivity|]. split; [reflexivity|].
  split; [reflexivity|]. split; [reflexivity|].
  apply (triple_item_traces central lower upper central lower upper "B" 1 None None
           ("rgba(255,0,0,1)", "rgba(255,0,0,0.25)")
           (dense_series_well_formed _ _) (dense_series_well_formed _ _));
    reflexivity.
Defined.

Lemma plot_line_palette_witness :
  0 ≤ 9
  ∧ (∃ color, PLOT_COLORS !! Z.to_nat (9 `mod` 7) = Some color
              ∧ plot_line FigureWidget central "A" (color_of None 9)
                = Ok (add_trace FigureWidget
                        (Line (Series.x central) (Series.y central) color.1 "A")))
  ∧ (7 < -7 ∨ 7 ≤ 7)
  ∧ plot_line FigureWidget central "A" 7 = Err IndexError.
Proof.
  split; [lia|]. split.
  - apply (proj1 (plot_line_palette FigureWidget central "A") 9). lia.
  - split; [right; lia|].
    apply (proj2 (plot_line_palette FigureWidget central "A") 7). right. lia.
Defined.

Lemma plot_color_override_witness :
  ∃ fig,
    plot [line_only; triple_with_band] "t" false None None None None (Some 3) true
    = Ok fig
    ∧ py_index PLOT_COLORS 3 = Ok ("rgba(128,0,240,1)", "rgba(128,0,240,0.25)")
    ∧ Forall (uses_color ("rgba(128,0,240,1)", "rgba(128,0,240,0.25)")) (data fig).
Proof.
  eexists. split; [vm_compute; reflexivity|]. split; [reflexivity|].
  apply (plot_color_override [line_only; triple_with_band] "t" false None None None
           None 3 true _ ("rgba(128,0,240,1)", "rgba(128,0,240,0.25)"));
    [vm_compute; reflexivity|reflexivity].
Defined.

Lemma plot_trace_count_witness :
  ∃ fig,
    plot [line_only; triple_with_band] "t" false None None None None None true
    = Ok fig
    ∧ Forall (λ item, ∃ l, item.1 = Coll l ∧ (1 ≤ length l ≤ 3)%nat)
             [line_only; triple_with_band]
    ∧ length (data fig)
      = sum_list (traces_per_item true ∘ fst <$> [line_only; triple_with_band]).
Proof.
  eexists. split; [vm_compute; reflexivity|].
  apply (plot_trace_count [line_only; triple_with_band] "t" false None None None
           None None true).
  vm_compute. reflexivity.
Defined.

(** The bounds of a triple that cannot be trimmed do not matter when
    confidence intervals are not shown. *)
Example plot_untrimmable_bounds :
  data <$> plot [(Coll [central; no_days; no_days], "B")] "t" false None None None
                None None false
  = Ok [Line (Series.x central) (Series.y central) "rgba(0,0,255,1)" "B"].
Proof. vm_compute. reflexivity. Qed.
End more_witnesses.
